(** * Product Planning App: order computation and submission

    A shallow embedding of [app.py] (a Dash application backed by a Google
    Sheets workbook) and the properties of its two callbacks that carry the
    business logic:

    - [update_total_amount]: per-line amounts and the category total shown
      while quantities are typed;
    - [submit_data]: the rows appended to the "Submissions" worksheet.

    Conventions of the embedding.

    - Numbers.  A Python number is a [number]: an [int], of any size, or a
      [float].  Floats are the binary64 numbers of IEEE 754, with the
      operations of [SpecFloat] at precision 53: products and sums are
      rounded to nearest, ties to even, there are two zeros, infinities and
      a NaN.  Mixed arithmetic converts the [int] to a [float] first, and
      that conversion raises [OverflowError] beyond the range of a
      [float].  The quantities typed in a number input are taken to be
      [int]s.
    - Rows of the workbook ([get_all_records]) are records with text and
      number cells; a number cell is an [int] or a [float], as gspread
      reads it.  A column that may be missing from the sheet ("Price",
      read with [.get]) is an [option] field.  A "Price" cell that holds
      text is outside the model.
    - The values that Dash hands to a callback have the types of the
      components they come from: a dropdown gives [None] or a text, a
      number input gives [None] or a number, [n_clicks] is [None] or a
      counter, the children of the salesperson block are what a callback
      returned for them.
    - [None] is [option]'s [None]; truthiness ([if not x]) is spelled out
      by the [truthy_*] functions.
    - Exceptions are the [Raise] case of [result].  Code that talks to the
      outside world (uuid4, the clock, gspread) runs in the monad [M],
      which threads a [World].  [print] is left out. *)

From Stdlib Require Import QArith ZArith String Ascii List Lia DecimalString.
From Stdlib Require Import SpecFloat.
From stdpp Require Import base list strings pretty.

Open Scope string_scope.

(** ** Python values and helpers *)

Inductive exn : Type :=
| IndexError
| TypeError
| ValueError
| OverflowError
| APIError.

Inductive result (A : Type) : Type :=
| Ok (a : A)
| Raise (e : exn).

Arguments Ok {A} a.
Arguments Raise {A} e.

Definition result_bind {A B : Type} (r : result A) (k : A -> result B)
  : result B :=
  match r with
  | Ok a => k a
  | Raise e => Raise e
  end.

Notation "'let+' x ':=' r 'in' k" := (result_bind r (fun x => k))
  (at level 10, x name, r at level 100, k at level 200).

(** [if s:] for a value that is [None] or a [str]. *)
Definition truthy_str (s : option string) : bool :=
  match s with
  | Some s => negb (s =? EmptyString)
  | None => false
  end.

(** [if n:] for a value that is [None] or an [int] click counter. *)
Definition truthy_nat (n : option nat) : bool :=
  match n with
  | Some (S _) => true
  | _ => false
  end.

(** [s.split(sep)] for a non-empty [sep]: the pieces between the leftmost,
    non-overlapping occurrences of [sep].  [skip] counts the characters of
    an occurrence that are still to be dropped, [cur] is the piece being
    read. *)
Fixpoint split_go (sep : string) (skip : nat) (cur s : string) : list string :=
  match s with
  | EmptyString => [cur]
  | String c s' =>
      match skip with
      | S k => split_go sep k cur s'
      | O =>
          if String.prefix sep s
          then cur :: split_go sep (String.length sep - 1) EmptyString s'
          else split_go sep O (cur ++ String c EmptyString) s'
      end
  end.

Definition str_split (sep s : string) : list string := split_go sep 0 EmptyString s.

(** [l[i]] on a Python list. *)
Definition py_index {A : Type} (l : list A) (i : nat) : result A :=
  match l !! i with
  | Some x => Ok x
  | None => Raise IndexError
  end.

(** ** Numbers *)

(** binary64: 53 bits of precision, exponents below 1024. *)
Definition float : Type := spec_float.

Definition prec : Z := 53.
Definition emax : Z := 1024.

Definition float_mul : float -> float -> float := SFmul prec emax.
Definition float_add : float -> float -> float := SFadd prec emax.
Definition float_div : float -> float -> float := SFdiv prec emax.

(** The float nearest to an integer, ties to even; an infinity when the
    integer is beyond the largest float. *)
Definition float_of_Z (z : Z) : float := binary_normalize prec emax z 0 false.

Inductive number : Type :=
| Int (z : Z)
| Float (f : float).

(** The conversion of an [int] that [float(z)] and mixed arithmetic make:
    "OverflowError: int too large to convert to float". *)
Definition int_to_float (z : Z) : result float :=
  match float_of_Z z with
  | S754_infinity _ => Raise OverflowError
  | f => Ok f
  end.

(** [float(x)] *)
Definition py_float (x : number) : result float :=
  match x with
  | Int z => int_to_float z
  | Float f => Ok f
  end.

(** [x * y] *)
Definition py_mul (x y : number) : result number :=
  match x, y with
  | Int a, Int b => Ok (Int (a * b))
  | Int a, Float b => let+ a' := int_to_float a in Ok (Float (float_mul a' b))
  | Float a, Int b => let+ b' := int_to_float b in Ok (Float (float_mul a b'))
  | Float a, Float b => Ok (Float (float_mul a b))
  end.

(** [x + y] *)
Definition py_add (x y : number) : result number :=
  match x, y with
  | Int a, Int b => Ok (Int (a + b))
  | Int a, Float b => let+ a' := int_to_float a in Ok (Float (float_add a' b))
  | Float a, Int b => let+ b' := int_to_float b in Ok (Float (float_add a b'))
  | Float a, Float b => Ok (Float (float_add a b))
  end.

(** ** Rendering of amounts: [f"{x:.2f}"] *)

(** Nearest integer, ties to even. *)
Definition round_half_even (x : Q) : Z :=
  let n := Qnum x in
  let d := Z.pos (Qden x) in
  let fl := (n / d)%Z in
  match (2 * (n mod d) ?= d)%Z with
  | Lt => fl
  | Gt => (fl + 1)%Z
  | Eq => if Z.even fl then fl else (fl + 1)%Z
  end.

Definition decimal (n : Z) : string :=
  NilZero.string_of_uint (N.to_uint (Z.to_N n)).

Definition two_digits (n : Z) : string :=
  decimal (n / 10) ++ decimal (n mod 10).

(** The decimal text, with two digits after the point, of the rational
    [x] rounded to the nearest hundredth, ties to even. *)
Definition format_2f (x : Q) : string :=
  let c := Z.abs (round_half_even (x * 100)%Q) in
  (if (Qnum x <? 0)%Z then "-" else EmptyString)
    ++ decimal (c / 100) ++ "." ++ two_digits (c mod 100).

(** The rational that a finite float stands for: (-1)^s * m * 2^e. *)
Definition float_value (s : bool) (m : positive) (e : Z) : Q :=
  let n := if s then Z.neg m else Z.pos m in
  match e with
  | Z0 => n # 1
  | Zpos k => (n * 2 ^ Zpos k) # 1
  | Zneg k => n # (2 ^ k)%positive
  end.

(** [f"{f:.2f}"] for a float: the exact value of the float is rounded, and
    the sign is that of the float, also for a zero. *)
Definition format_2f_float (f : float) : string :=
  match f with
  | S754_nan => "nan"
  | S754_infinity s => if s then "-inf" else "inf"
  | S754_zero s => if s then "-0.00" else "0.00"
  | S754_finite s m e => format_2f (float_value s m e)
  end.

(** [f"{x:.2f}"]: an [int] is converted to a float first. *)
Definition py_format_2f (x : number) : result string :=
  let+ f := py_float x in Ok (format_2f_float f).

(** [f"₹{x:.2f}"] *)
Definition rupees (x : number) : result string :=
  let+ s := py_format_2f x in Ok ("₹" ++ s).

(** ** The catalog: rows of the "Retailers" and "Products" worksheets *)

Record retailer : Type := {
  Retailer_Name : string;
  Retailer_Salesperson : string;
  Retailer_Team : string;
  Retailer_Email : string
}.

Record product : Type := {
  Product_name : string;
  Product_Category : string;
  Price : option number
}.

(** The [id] of a pattern-matching component,
    [{"type": ..., "index": ...}]. *)
Record component_id : Type := {
  id_type : string;
  index : string
}.

(** What a callback may put in the [children] of a [Div]: a text, or a
    list of paragraphs [html.P(text)], each holding its text under
    [["props"]["children"]]. *)
Inductive children : Type :=
| Text (s : string)
| Paragraphs (ps : list string).

(** The content of the "product-inputs" [Div]: a notice, or one row per
    product with its label, its quantity input and its amount cell. *)
Inductive product_inputs : Type :=
| Notice (msg : string)
| InputRows (rows : list (string * component_id * component_id)).

(** One row of the "Submissions" worksheet, in column order. *)
Record SubmissionRecord : Type := {
  Unique_ID : string;
  Retailer : string;
  Salesperson : string;
  Team : string;
  Email : string;
  Category : string;
  Product : string;
  Quantity : Z;
  Amount : number;
  Latitude : string;
  Longitude : string;
  Timestamp : string
}.

(** ** The outside world *)

(** [uuid4_src] and [now_src] are the values that successive calls of
    [uuid.uuid4()] and [datetime.datetime.now()] return; [gspread_raises]
    tells which calls to the Sheets API fail.  The counters say how many
    calls were made so far.  [Submissions] is the worksheet: rows are only
    ever added at its end, by a call of [append_row] that succeeds. *)
Record World : Type := {
  uuid4_src : nat -> string;
  uuid4_calls : nat;
  now_src : nat -> string;
  now_calls : nat;
  gspread_raises : nat -> bool;
  gspread_calls : nat;
  Submissions : list SubmissionRecord
}.

Definition M (A : Type) : Type := World -> result A * World.

Definition ret {A : Type} (a : A) : M A := fun w => (Ok a, w).

Definition bind {A B : Type} (m : M A) (k : A -> M B) : M B :=
  fun w =>
    match m w with
    | (Ok a, w') => k a w'
    | (Raise e, w') => (Raise e, w')
    end.

Definition lift {A : Type} (r : result A) : M A := fun w => (r, w).

(** [try: m except Exception: h] *)
Definition try_except {A : Type} (m : M A) (h : exn -> M A) : M A :=
  fun w =>
    match m w with
    | (Ok a, w') => (Ok a, w')
    | (Raise e, w') => h e w'
    end.

Notation "'let*' x ':=' m 'in' k" := (bind m (fun x => k))
  (at level 10, x name, m at level 100, k at level 200).

(** [str(uuid.uuid4())] *)
Definition uuid4 : M string := fun w =>
  (Ok (uuid4_src w (uuid4_calls w)),
   {| uuid4_src := uuid4_src w; uuid4_calls := S (uuid4_calls w);
      now_src := now_src w; now_calls := now_calls w;
      gspread_raises := gspread_raises w; gspread_calls := gspread_calls w;
      Submissions := Submissions w |}).

(** [datetime.datetime.now().isoformat()] *)
Definition now_isoformat : M string := fun w =>
  (Ok (now_src w (now_calls w)),
   {| uuid4_src := uuid4_src w; uuid4_calls := uuid4_calls w;
      now_src := now_src w; now_calls := S (now_calls w);
      gspread_raises := gspread_raises w; gspread_calls := gspread_calls w;
      Submissions := Submissions w |}).

(** A call to the Sheets API that adds [rows] to the worksheet when it
    succeeds and leaves the worksheet as it is when it raises. *)
Definition gspread_call (rows : list SubmissionRecord) : M unit := fun w =>
  let failed := gspread_raises w (gspread_calls w) in
  (if failed then Raise APIError else Ok tt,
   {| uuid4_src := uuid4_src w; uuid4_calls := uuid4_calls w;
      now_src := now_src w; now_calls := now_calls w;
      gspread_raises := gspread_raises w; gspread_calls := S (gspread_calls w);
      Submissions := if failed then Submissions w else Submissions w ++ rows |}).

(** [spreadsheet.worksheet("Submissions")] *)
Definition worksheet_Submissions : M unit := gspread_call [].

(** [worksheet.append_row(list(data.values()))] *)
Definition append_row (data : SubmissionRecord) : M unit := gspread_call [data].

(** [for idx, x in enumerate(l): out.append(body(idx, x))], counting from
    [idx]. *)
Fixpoint for_enumerate {A B : Type} (body : nat -> A -> M B) (idx : nat)
    (l : list A) : M (list B) :=
  match l with
  | [] => ret []
  | x :: l' =>
      let* y := body idx x in
      let* ys := for_enumerate body (S idx) l' in
      ret (y :: ys)
  end.

(** [for x in l: body(x)] *)
Fixpoint for_each {A : Type} (body : A -> M unit) (l : list A) : M unit :=
  match l with
  | [] => ret tt
  | x :: l' => let* _ := body x in for_each body l'
  end.

(** [a == b] where [a] is a [str] and [b] is [None] or a [str]. *)
Definition str_eq (a : string) (b : option string) : bool :=
  match b with
  | Some b => a =? b
  | None => false
  end.

(** [f"{s}"] where [s] is [None] or a [str]. *)
Definition py_str (s : option string) : string :=
  match s with
  | Some s => s
  | None => "None"
  end.

(** ** The callbacks *)

Section App.

(** The module-level snapshots of the workbook, read once at start-up. *)
Variable retailers_data : list retailer.
Variable products_data : list product.

Definition update_salesperson_info (selected_retailer : option string)
  : children :=
  if negb (truthy_str selected_retailer) then
    Text "Please select a retailer."
  else
    match
      find (fun r => str_eq (Retailer_Name r) selected_retailer)
        retailers_data
    with
    | None => Text "Retailer not found."
    | Some salesperson_info =>
        Paragraphs
          [ "👤 Salesperson: " ++ Retailer_Salesperson salesperson_info;
            "📢 Team: " ++ Retailer_Team salesperson_info;
            "📧 Email: " ++ Retailer_Email salesperson_info ]
    end.

(** [[p for p in products_data if p.get("Category") == selected_category]] *)
Definition filtered_products (selected_category : option string)
  : list product :=
  List.filter (fun p => str_eq (Product_Category p) selected_category)
    products_data.

Definition update_product_inputs (selected_category : option string)
  : product_inputs :=
  if negb (truthy_str selected_category) then
    Notice "⚠️ Please select a category to enter product quantities."
  else
    match filtered_products selected_category with
    | [] =>
        Notice ("⚠️ No products found under the '"
                  ++ py_str selected_category ++ "' category.")
    | filtered =>
        InputRows
          (map (fun product =>
                  let product_name := Product_name product in
                  (product_name,
                   {| id_type := "input"; index := product_name |},
                   {| id_type := "total"; index := product_name |}))
             filtered)
    end.

(** [next((p for p in products_data if p["Product name"] == product_id),
    None)] *)
Definition product_info_of (product_id : string) : option product :=
  find (fun p => Product_name p =? product_id) products_data.

(** [float(product_info.get("Price", 0)) if product_info else 0] *)
Definition price_of_info (product_info : option product) : result number :=
  match product_info with
  | Some p =>
      let+ price :=
        py_float match Price p with
                 | Some v => v
                 | None => Int 0
                 end in
      Ok (Float price)
  | None => Ok (Int 0)
  end.

(** The [for] loop of [update_total_amount], from position [idx] on, with
    the two accumulators [total_values] and [category_total]. *)
Fixpoint update_total_amount_loop (idx : nat) (quantities : list (option Z))
    (ids : list component_id) (total_values : list string)
    (category_total : number) : result (list string * number) :=
  match quantities with
  | [] => Ok (total_values, category_total)
  | quantity :: quantities' =>
      let quantity :=
        match quantity with
        | None => 0%Z
        | Some q => q
        end in
      let+ id := py_index ids idx in
      let product_id := index id in
      let product_info := product_info_of product_id in
      let+ price := price_of_info product_info in
      let+ total_amount := py_mul price (Int quantity) in
      let+ line := rupees total_amount in
      let+ category_total := py_add category_total total_amount in
      update_total_amount_loop (S idx) quantities' ids
        (total_values ++ [line]) category_total
  end.

Definition update_total_amount (quantities : list (option Z))
    (ids : list component_id) : result (list string * string) :=
  match quantities with
  | [] => Ok (repeat "₹0.00" (length ids), "Total Value: ₹0.00")
  | _ =>
      let+ totals := update_total_amount_loop 0 quantities ids [] (Int 0) in
      let+ total := rupees (snd totals) in
      Ok (fst totals, "Total Value: " ++ total)
  end.

(** [salesperson_info[i]["props"]["children"].split(": ")[1]].  A text
    subscripted by [i] is a one-character text (or an [IndexError]), and
    that has no ["props"]. *)
Definition paragraph_value (salesperson_info : option children) (i : nat)
  : result string :=
  match salesperson_info with
  | None => Raise TypeError
  | Some (Text s) =>
      if (i <? String.length s)%nat then Raise TypeError
      else Raise IndexError
  | Some (Paragraphs ps) =>
      match py_index ps i with
      | Raise e => Raise e
      | Ok text => py_index (str_split ": " text) 1
      end
  end.

(** [latitude, longitude = geolocation.split(",")], or the default. *)
Definition latitude_longitude (geolocation : option string)
  : result (string * string) :=
  if truthy_str geolocation then
    match str_split "," (py_str geolocation) with
    | [latitude; longitude] => Ok (latitude, longitude)
    | _ => Raise ValueError
    end
  else Ok ("0", "0").

(** [input_values[idx] if idx < len(input_values) and input_values[idx]
    is not None else 0] *)
Definition quantity_at (input_values : list (option Z)) (idx : nat) : Z :=
  if (idx <? length input_values)%nat then
    match input_values !! idx with
    | Some (Some q) => q
    | _ => 0%Z
    end
  else 0%Z.

(** [product.get("Price", 0) if product.get("Price") is not None else 0] *)
Definition price_of (p : product) : number :=
  match Price p with
  | Some v => v
  | None => Int 0
  end.

(** The body of the [for] loop that fills [submission_data]. *)
Definition submission_row (selected_retailer selected_category : option string)
    (salesperson team email : string) (input_values : list (option Z))
    (latitude longitude : string) (idx : nat) (product : product)
  : M SubmissionRecord :=
  let product_name := Product_name product in
  let quantity := quantity_at input_values idx in
  let price := price_of product in
  let* amount := lift (py_mul price (Int quantity)) in
  let* unique_id := uuid4 in
  let* timestamp := now_isoformat in
  ret {| Unique_ID := unique_id;
         Retailer := py_str selected_retailer;
         Salesperson := salesperson;
         Team := team;
         Email := email;
         Category := py_str selected_category;
         Product := product_name;
         Quantity := quantity;
         Amount := amount;
         Latitude := latitude;
         Longitude := longitude;
         Timestamp := timestamp |}.

(** The first part of the [try] block of [submit_data]: everything up to
    the complete [submission_data] list. *)
Definition build_submission_data
    (selected_retailer selected_category : option string)
    (salesperson_info : option children) (input_values : list (option Z))
    (geolocation : option string) : M (list SubmissionRecord) :=
  let* salesperson := lift (paragraph_value salesperson_info 0) in
  let* team := lift (paragraph_value salesperson_info 1) in
  let* email := lift (paragraph_value salesperson_info 2) in
  let* coordinates := lift (latitude_longitude geolocation) in
  for_enumerate
    (submission_row selected_retailer selected_category salesperson team
       email input_values (fst coordinates) (snd coordinates))
    0 (filtered_products selected_category).

Definition submit_data (n_clicks : option nat)
    (selected_retailer selected_category : option string)
    (salesperson_info : option children) (input_values : list (option Z))
    (geolocation : option string) : M (string * bool) :=
  if negb (truthy_nat n_clicks) || negb (truthy_str selected_retailer)
     || negb (truthy_str selected_category)
  then ret ("⚠️ Please complete all fields before submitting.", false)
  else
    try_except
      (let* submission_data :=
         build_submission_data selected_retailer selected_category
           salesperson_info input_values geolocation in
       let* _ := worksheet_Submissions in
       let* _ := for_each append_row submission_data in
       ret ("✅ Data submitted successfully for "
              ++ py_str selected_category ++ " in "
              ++ py_str selected_retailer ++ ".", true))
      (fun e => ret ("❌ An error occurred while submitting. Please try again.",
                     false)).

End App.

(** The id of the quantity input of a product. *)
Definition input_id (product_name : string) : component_id :=
  {| id_type := "input"; index := product_name |}.

(** The ids of the quantity inputs that are on the page, in page order:
    what [State({"type": "input", "index": ALL}, "id")] gives. *)
Definition input_ids (rendered : product_inputs) : list component_id :=
  match rendered with
  | Notice _ => []
  | InputRows rows => map (fun row => row.1.2) rows
  end.

(** ** Arithmetic that does not overflow *)

(** The integers that convert to a float: those below 2^1024 - 2^970 in
    absolute value. *)
Definition fits_float (z : Z) : bool :=
  match float_of_Z z with
  | S754_infinity _ => false
  | _ => true
  end.

Definition number_fits (x : number) : bool :=
  match x with
  | Int z => fits_float z
  | Float _ => true
  end.

(** [float(x)] when it does not raise. *)
Definition to_float (x : number) : float :=
  match x with
  | Int z => float_of_Z z
  | Float f => f
  end.

(** The test that [x * y] and [x + y] do not raise: an [int] operand that
    meets a [float] converts to a float. *)
Definition operands_fit (x y : number) : bool :=
  match x, y with
  | Int _, Int _ => true
  | _, _ => number_fits x && number_fits y
  end.

(** [x * y] when it does not raise. *)
Definition number_mul (x y : number) : number :=
  match x, y with
  | Int a, Int b => Int (a * b)
  | _, _ => Float (float_mul (to_float x) (to_float y))
  end.

(** [x + y] when it does not raise. *)
Definition number_add (x y : number) : number :=
  match x, y with
  | Int a, Int b => Int (a + b)
  | _, _ => Float (float_add (to_float x) (to_float y))
  end.

(** [f"₹{f:.2f}"] for a float. *)
Definition rupees_float (f : float) : string := "₹" ++ format_2f_float f.

(** The numbers that the loop of [update_total_amount] handles when it
    does not raise: floats, and the [int] 0 of a line without product. *)
Definition tame (x : number) : Prop :=
  match x with
  | Int z => z = 0%Z
  | Float _ => True
  end.

(** A price whose float is finite and has its sign bit clear. *)
Definition nonnegative_price (x : number) : bool :=
  match py_float x with
  | Ok (S754_zero false) | Ok (S754_finite false _ _) => true
  | _ => false
  end.

(** Every entered quantity converts to a float. *)
Definition quantities_fit (quantities : list (option Z)) : bool :=
  forallb (fun q => fits_float (default 0%Z q)) quantities.

(** Every price of the catalog converts to a float. *)
Definition prices_fit (products_data : list product) : bool :=
  forallb (fun p => number_fits (price_of p)) products_data.

(** The float nearest to the fraction [n / d], for [n] and [d] that are
    floats themselves: what Python reads from its decimal text. *)
Definition float_ratio (n d : Z) : float :=
  float_div (float_of_Z n) (float_of_Z d).




(** ** A small workbook *)

Definition chips : product :=
  {| Product_name := "Chips"; Product_Category := "Snacks";
     Price := Some (Int 20) |}.

(** 12.5 *)
Definition soap : product :=
  {| Product_name := "Soap"; Product_Category := "Care";
     Price := Some (Float (float_ratio 25 2)) |}.

Definition cola : product :=
  {| Product_name := "Cola"; Product_Category := "Snacks";
     Price := Some (Int 15) |}.

(** 0.013 *)
Definition clove : product :=
  {| Product_name := "Clove"; Product_Category := "Spices";
     Price := Some (Float (float_ratio 13 1000)) |}.

(** A product given away: its price is the [int] 0. *)
Definition sample : product :=
  {| Product_name := "Sample"; Product_Category := "Gifts";
     Price := Some (Int 0) |}.

Definition snacks_products : list product := [chips; soap; cola].

Definition corner_shop : retailer :=
  {| Retailer_Name := "Corner Shop"; Retailer_Salesperson := "Asha";
     Retailer_Team := "North"; Retailer_Email := "asha@example.org" |}.

(** A world whose clock and generator return the call number, as a text. *)
Definition counting_world : World :=
  {| uuid4_src := fun n => pretty n; uuid4_calls := 0;
     now_src := fun n => pretty n; now_calls := 0;
     gspread_raises := fun _ => false; gspread_calls := 0;
     Submissions := [] |}.

(** A retailer row whose "Salesperson" cell is blank. *)
Definition unstaffed_shop : retailer :=
  {| Retailer_Name := "Corner Shop"; Retailer_Salesperson := EmptyString;
     Retailer_Team := "North"; Retailer_Email := "asha@example.org" |}.

(** A world in which the third call to the Sheets API fails: the worksheet
    is found, the first row is appended, the second append raises. *)
Definition failing_world : World :=
  {| uuid4_src := fun n => pretty n; uuid4_calls := 0;
     now_src := fun n => pretty n; now_calls := 0;
     gspread_raises := fun n => (n =? 2)%nat; gspread_calls := 0;
     Submissions := [] |}.

(** ** Edits of the draft *)

(** The callback is registered on [Input({"type": "input", "index": ALL},
    "value")]: whenever the value of one quantity input changes, it is
    called with the values of all the inputs, the others as they were.  An
    edit is that change of the list; an edit of a line that is not on the
    page changes nothing. *)
Definition set_quantity (line : nat) (quantity : option Z)
    (quantities : list (option Z)) : list (option Z) :=
  <[line := quantity]> quantities.


(** ** What one run of the submission loop leaves behind *)

(** The world after [n] records were built: [n] identifiers drawn and [n]
    readings of the clock. *)
Definition tick (n : nat) (w : World) : World :=
  {| uuid4_src := uuid4_src w; uuid4_calls := n + uuid4_calls w;
     now_src := now_src w; now_calls := n + now_calls w;
     gspread_raises := gspread_raises w; gspread_calls := gspread_calls w;
     Submissions := Submissions w |}.

(** The world after [n] calls to the Sheets API that added [rows]. *)
Definition sent (n : nat) (rows : list SubmissionRecord) (w : World) : World :=
  {| uuid4_src := uuid4_src w; uuid4_calls := uuid4_calls w;
     now_src := now_src w; now_calls := now_calls w;
     gspread_raises := gspread_raises w; gspread_calls := n + gspread_calls w;
     Submissions := Submissions w ++ rows |}.

(** The [k]-th record of a build that starts in world [w]. *)
Definition record_at (w : World)
    (selected_retailer selected_category : option string)
    (salesperson team email : string) (input_values : list (option Z))
    (latitude longitude : string) (k : nat) (p : product) : SubmissionRecord :=
  {| Unique_ID := uuid4_src w (k + uuid4_calls w);
     Retailer := py_str selected_retailer;
     Salesperson := salesperson;
     Team := team;
     Email := email;
     Category := py_str selected_category;
     Product := Product_name p;
     Quantity := quantity_at input_values k;
     Amount := number_mul (price_of p) (Int (quantity_at input_values k));
     Latitude := latitude;
     Longitude := longitude;
     Timestamp := now_src w (k + now_calls w) |}.

(** The product [price * quantity] of the [k]-th row of a build does not
    overflow. *)
Definition row_fits (input_values : list (option Z)) (k : nat) (p : product)
  : bool :=
  operands_fit (price_of p) (Int (quantity_at input_values k)).

(** The messages of [submit_data]. *)
Definition msg_incomplete : string :=
  "⚠️ Please complete all fields before submitting.".

Definition msg_error : string :=
  "❌ An error occurred while submitting. Please try again.".

Definition msg_success (selected_retailer selected_category : option string)
  : string :=
  "✅ Data submitted successfully for " ++ py_str selected_category ++ " in "
    ++ py_str selected_retailer ++ ".".

(** The selected retailer is a retailer of the catalog: the two tests that
    [update_salesperson_info] makes before it renders the three
    paragraphs. *)
Definition known_retailer (retailers_data : list retailer)
    (selected_retailer : option string) : bool :=
  truthy_str selected_retailer
  && bool_decide
       (is_Some (find (fun r => str_eq (Retailer_Name r) selected_retailer)
                   retailers_data)).

(** The per-line amount of [update_total_amount] for one product name and
    one quantity input (lines 157 to 163). *)
Definition line_amount (products_data : list product) (product_id : string)
    (quantity : option Z) : result number :=
  let+ price := price_of_info (product_info_of products_data product_id) in
  py_mul price (Int (default 0%Z quantity)).

(** The same amount when nothing overflows, and the test for that. *)
Definition amount_value (products_data : list product) (product_id : string)
    (quantity : option Z) : number :=
  match product_info_of products_data product_id with
  | Some p =>
      Float (float_mul (to_float (price_of p))
               (float_of_Z (default 0%Z quantity)))
  | None => Int 0
  end.

Definition line_fits (products_data : list product) (product_id : string)
    (quantity : option Z) : bool :=
  match product_info_of products_data product_id with
  | Some p => number_fits (price_of p) && fits_float (default 0%Z quantity)
  | None => true
  end.

(** The amount of a line for a product of the catalog:
    [float(price) * quantity]. *)
Definition line_product (p : product) (quantity : Z) : float :=
  float_mul (to_float (price_of p)) (float_of_Z quantity).

(** ** The rest of the page *)

(** An entry of a dropdown, [{"label": ..., "value": ...}]. *)
Record dropdown_option : Type := {
  label : string;
  value : string
}.

(** [[{"label": r["Retailer Name"], "value": r["Retailer Name"]} for r in
    retailers_data]] *)
Definition retailers_options (retailers_data : list retailer)
  : list dropdown_option :=
  map (fun r => {| label := Retailer_Name r; value := Retailer_Name r |})
    retailers_data.

(** What the browser answers to [getCurrentPosition]: a position, whose
    coordinates are given here as the texts that JavaScript makes of them,
    an error, or nothing yet. *)
Inductive geolocation_answer : Type :=
| Position (latitude longitude : string)
| PositionError
| NoAnswer.

(** The clientside callback behind [Output("geolocation", "data")].  The
    answer of the browser reaches the two inner functions after the outer
    one has returned: what they return is dropped, and the only trace of a
    position is the entry written to [localStorage].  The result is the
    value returned for the store, and the entry written, if any. *)
Definition geolocation_clientside (n_clicks : option nat)
    (answer : geolocation_answer) : string * option string :=
  if truthy_nat n_clicks then
    match answer with
    | Position latitude longitude =>
        let coords := latitude ++ "," ++ longitude in
        ("0,0", Some coords)
    | PositionError => ("0,0", None)
    | NoAnswer => ("0,0", None)
    end
  else ("0,0", None).

(** The id of the amount cell of a product. *)
Definition total_id (product_name : string) : component_id :=
  {| id_type := "total"; index := product_name |}.

(** [sep] occurs in [s]. *)
Fixpoint occurs (sep s : string) : bool :=
  String.prefix sep s
  || match s with
     | EmptyString => false
     | String _ s' => occurs sep s'
     end.

(** The number of characters of [s] that are [c]. *)
Fixpoint count_char (c : ascii) (s : string) : nat :=
  match s with
  | EmptyString => 0
  | String a s' => (if Ascii.eqb a c then 1 else 0) + count_char c s'
  end.

(** A retailer row whose "Salesperson" cell holds a colon and a space. *)
Definition titled_shop : retailer :=
  {| Retailer_Name := "Corner Shop"; Retailer_Salesperson := "Dr: Rao";
     Retailer_Team := "North"; Retailer_Email := "rao@example.org" |}.

(** A world in which every call to the Sheets API fails. *)
Definition offline_world : World :=
  {| uuid4_src := fun n => pretty n; uuid4_calls := 0;
     now_src := fun n => pretty n; now_calls := 0;
     gspread_raises := fun _ => true; gspread_calls := 0;
     Submissions := [] |}.
(** * Properties *)

(** ** Text *)

Lemma prefix_empty (s : string) : String.prefix EmptyString s = true.
Proof. destruct s; reflexivity. Qed.

Lemma split_go_cons (sep : string) (skip : nat) (cur s : string) :
  exists piece pieces, split_go sep skip cur s = piece :: pieces.
Proof.
  revert skip cur. induction s as [|c s IH]; intros skip cur.
  - simpl. eauto.
  - cbn [split_go]. destruct skip; [|apply IH].
    destruct (String.prefix sep (String c s)); [eauto|apply IH].
Qed.

(** A rendered paragraph "label: value" always has a piece after the
    first ": ". *)
Lemma rendered_salesperson (x : string) :
  exists v, py_index (str_split ": " ("👤 Salesperson: " ++ x)) 1 = Ok v.
Proof.
  unfold str_split. cbv [append]. cbn. rewrite prefix_empty.
  destruct (split_go_cons ": " 0 EmptyString x) as (v & vs & ->). by exists v.
Qed.

Lemma rendered_team (x : string) :
  exists v, py_index (str_split ": " ("📢 Team: " ++ x)) 1 = Ok v.
Proof.
  unfold str_split. cbv [append]. cbn. rewrite prefix_empty.
  destruct (split_go_cons ": " 0 EmptyString x) as (v & vs & ->). by exists v.
Qed.

Lemma rendered_email (x : string) :
  exists v, py_index (str_split ": " ("📧 Email: " ++ x)) 1 = Ok v.
Proof.
  unfold str_split. cbv [append]. cbn. rewrite prefix_empty.
  destruct (split_go_cons ": " 0 EmptyString x) as (v & vs & ->). by exists v.
Qed.

(** ** The salesperson block *)

Section Salesperson.

Variable retailers_data : list retailer.

Lemma known_retailer_paragraphs (selected_retailer : option string) :
  known_retailer retailers_data selected_retailer = true ->
  exists sp tm em,
    let info := Some (update_salesperson_info retailers_data selected_retailer) in
    paragraph_value info 0 = Ok sp
    /\ paragraph_value info 1 = Ok tm
    /\ paragraph_value info 2 = Ok em.
Proof.
  unfold known_retailer, update_salesperson_info.
  intros [Ht Hf%bool_decide_eq_true]%andb_true_iff. rewrite Ht.
  destruct Hf as [r ->]. cbn [negb paragraph_value py_index lookup list_lookup].
  destruct (rendered_salesperson (Retailer_Salesperson r)) as [sp Hsp].
  destruct (rendered_team (Retailer_Team r)) as [tm Htm].
  destruct (rendered_email (Retailer_Email r)) as [em Hem].
  exists sp, tm, em. cbn. auto.
Qed.

Lemma unknown_retailer_raises (selected_retailer : option string) :
  known_retailer retailers_data selected_retailer = false ->
  exists e,
    paragraph_value
      (Some (update_salesperson_info retailers_data selected_retailer)) 0
    = Raise e.
Proof.
  unfold known_retailer, update_salesperson_info. intros H.
  destruct (truthy_str selected_retailer); cbn [negb].
  - cbn [andb] in H. apply bool_decide_eq_false in H.
    destruct (find _ retailers_data) as [r|]; [destruct H; eauto|].
    by exists TypeError.
  - by exists TypeError.
Qed.

End Salesperson.


(** ** Numbers *)

Lemma int_to_float_run (z : Z) :
  int_to_float z
  = if fits_float z then Ok (float_of_Z z) else Raise OverflowError.
Proof. unfold int_to_float, fits_float. by destruct (float_of_Z z). Qed.

Lemma py_float_run (x : number) :
  py_float x = if number_fits x then Ok (to_float x) else Raise OverflowError.
Proof. destruct x; [apply int_to_float_run|done]. Qed.

Lemma py_mul_run (x y : number) :
  py_mul x y
  = if operands_fit x y then Ok (number_mul x y) else Raise OverflowError.
Proof.
  destruct x as [a|a], y as [b|b]; cbn; rewrite ?int_to_float_run; try done.
  - by destruct (fits_float a).
  - by destruct (fits_float b).
Qed.

Lemma py_add_run (x y : number) :
  py_add x y
  = if operands_fit x y then Ok (number_add x y) else Raise OverflowError.
Proof.
  destruct x as [a|a], y as [b|b]; cbn; rewrite ?int_to_float_run; try done.
  - by destruct (fits_float a).
  - by destruct (fits_float b).
Qed.

Lemma rupees_run (x : number) :
  rupees x
  = if number_fits x then Ok (rupees_float (to_float x))
    else Raise OverflowError.
Proof.
  unfold rupees, py_format_2f. rewrite py_float_run.
  by destruct (number_fits x).
Qed.

Lemma tame_fits (x : number) : tame x -> number_fits x = true.
Proof. destruct x as [z|f]; [intros ->; reflexivity|done]. Qed.

Lemma tame_operands_fit (x y : number) :
  tame x -> tame y -> operands_fit x y = true.
Proof.
  intros Hx%tame_fits Hy%tame_fits.
  destruct x, y; cbn in *; by rewrite ?Hx, ?Hy.
Qed.

Lemma tame_number_add (x y : number) : tame x -> tame y -> tame (number_add x y).
Proof. destruct x, y; cbn; try done. by intros -> ->. Qed.

Lemma tame_foldl (total : number) (amounts : list number) :
  tame total -> Forall tame amounts -> tame (foldl number_add total amounts).
Proof.
  intros Ht Ha. revert total Ht.
  induction Ha as [|a l Ha _ IH]; intros total Ht; [done|].
  cbn [foldl]. by apply IH, tame_number_add.
Qed.



(** ** Recomputation of the totals *)

Section Recompute.

Variable products_data : list product.


Lemma product_info_of_elem_of (product_id : string) (p : product) :
  product_info_of products_data product_id = Some p -> p ∈ products_data.
Proof.
  unfold product_info_of. intros H%find_some. apply list_elem_of_In, H.
Qed.

(** One line: its amount, or an [OverflowError] when the price or the
    quantity is beyond the range of a float. *)
Lemma line_amount_run (product_id : string) (quantity : option Z) :
  line_amount products_data product_id quantity
  = if line_fits products_data product_id quantity
    then Ok (amount_value products_data product_id quantity)
    else Raise OverflowError.
Proof.
  unfold line_amount, line_fits, amount_value, price_of_info.
  destruct (product_info_of products_data product_id) as [p|]; [|done].
  change (match Price p with Some v => v | None => Int 0 end) with (price_of p).
  rewrite py_float_run.
  destruct (number_fits (price_of p)); [|done].
  cbn [result_bind]. rewrite py_mul_run. cbn.
  by destruct (fits_float (default 0%Z quantity)).
Qed.

Lemma amount_value_tame (product_id : string) (quantity : option Z) :
  tame (amount_value products_data product_id quantity).
Proof.
  unfold amount_value.
  by destruct (product_info_of products_data product_id).
Qed.

(** One turn of the loop. *)
Lemma update_total_amount_loop_cons (idx : nat) (quantity : option Z)
    (quantities : list (option Z)) (ids : list component_id)
    (total_values : list string) (category_total : number) :
  update_total_amount_loop products_data idx (quantity :: quantities) ids
    total_values category_total
  = let+ id := py_index ids idx in
    let+ total_amount := line_amount products_data (index id) quantity in
    let+ line := rupees total_amount in
    let+ category_total := py_add category_total total_amount in
    update_total_amount_loop products_data (S idx) quantities ids
      (total_values ++ [line]) category_total.
Proof.
  cbn [update_total_amount_loop]. unfold line_amount.
  destruct (py_index ids idx) as [id|e]; [|done]. cbn [result_bind].
  destruct (price_of_info (product_info_of products_data (index id)))
    as [price|e]; [|done].
  cbn [result_bind]. by destruct quantity.
Qed.

Local Abbreviation lines_of idx ids quantities :=
  (zip (drop idx ids) quantities).

Local Abbreviation fitting :=
  (fun l : component_id * option Z =>
     line_fits products_data (index l.1) l.2 = true).

Lemma drop_lookup_cons {A : Type} (l : list A) (i : nat) (x : A) :
  l !! i = Some x -> drop i l = x :: drop (S i) l.
Proof.
  revert i. induction l as [|a l IH]; intros [|i] H; try done.
  - by injection H as ->.
  - cbn. by apply IH.
Qed.

(** The loop over lines that all fit, with enough ids. *)
Lemma update_total_amount_loop_fits (idx : nat) (quantities : list (option Z))
    (ids : list component_id) (total_values : list string)
    (category_total : number) :
  tame category_total ->
  idx + length quantities <= length ids ->
  Forall fitting (lines_of idx ids quantities) ->
  update_total_amount_loop products_data idx quantities ids total_values
    category_total
  = Ok ((total_values
           ++ map (fun l => rupees_float
                              (to_float (amount_value products_data (index l.1) l.2)))
                (lines_of idx ids quantities))%list,
        foldl number_add category_total
          (map (fun l => amount_value products_data (index l.1) l.2)
             (lines_of idx ids quantities))).
Proof.
  revert idx total_values category_total.
  induction quantities as [|q qs IH]; intros idx tv ct Hct Hlen Hfit.
  - rewrite zip_with_nil_r. cbn. by rewrite app_nil_r.
  - cbn [length] in Hlen.
    destruct (lookup_lt_is_Some_2 ids idx) as [id Hid]; [lia|].
    rewrite (drop_lookup_cons _ _ _ Hid) in Hfit |- *.
    cbn [zip_with] in Hfit |- *. apply Forall_cons in Hfit as [Hq Hqs].
    cbn [fst snd] in Hq.
    rewrite update_total_amount_loop_cons. unfold py_index. rewrite Hid.
    cbn [result_bind]. rewrite line_amount_run, Hq. cbn [result_bind].
    pose proof (amount_value_tame (index id) q) as Ha.
    rewrite rupees_run, (tame_fits _ Ha). cbn [result_bind].
    rewrite py_add_run, tame_operands_fit by done. cbn [result_bind].
    rewrite IH; [|by apply tame_number_add|lia|done].
    cbn [map foldl fst snd]. by rewrite <- app_assoc.
Qed.

(** The loop runs out of ids before it has met a line that overflows. *)
Lemma update_total_amount_loop_IndexError (idx : nat)
    (quantities : list (option Z)) (ids : list component_id)
    (total_values : list string) (category_total : number) :
  tame category_total ->
  idx <= length ids ->
  length ids < idx + length quantities ->
  Forall fitting (lines_of idx ids quantities) ->
  update_total_amount_loop products_data idx quantities ids total_values
    category_total
  = Raise IndexError.
Proof.
  revert idx total_values category_total.
  induction quantities as [|q qs IH]; intros idx tv ct Hct Hidx Hlen Hfit.
  - cbn in Hlen. lia.
  - rewrite update_total_amount_loop_cons. unfold py_index.
    destruct (ids !! idx) as [id|] eqn:Hid; [|done].
    pose proof (lookup_lt_Some _ _ _ Hid) as Hlt.
    rewrite (drop_lookup_cons _ _ _ Hid) in Hfit.
    cbn [zip_with] in Hfit. apply Forall_cons in Hfit as [Hq Hqs].
    cbn [fst snd] in Hq.
    cbn [result_bind]. rewrite line_amount_run, Hq. cbn [result_bind].
    pose proof (amount_value_tame (index id) q) as Ha.
    rewrite rupees_run, (tame_fits _ Ha). cbn [result_bind].
    rewrite py_add_run, tame_operands_fit by done. cbn [result_bind].
    apply IH; [by apply tame_number_add|lia|cbn in Hlen; lia|done].
Qed.

(** The loop meets a line that overflows. *)
Lemma update_total_amount_loop_OverflowError (idx : nat)
    (quantities : list (option Z)) (ids : list component_id)
    (total_values : list string) (category_total : number) :
  tame category_total ->
  Exists (fun l => line_fits products_data (index l.1) l.2 = false)
    (lines_of idx ids quantities) ->
  update_total_amount_loop products_data idx quantities ids total_values
    category_total
  = Raise OverflowError.
Proof.
  revert idx total_values category_total.
  induction quantities as [|q qs IH]; intros idx tv ct Hct Hex.
  - rewrite zip_with_nil_r in Hex. by apply Exists_nil in Hex.
  - destruct (ids !! idx) as [id|] eqn:Hid.
    2: { rewrite drop_ge in Hex by (by apply lookup_ge_None).
         by apply Exists_nil in Hex. }
    rewrite (drop_lookup_cons _ _ _ Hid) in Hex. cbn [zip_with] in Hex.
    rewrite update_total_amount_loop_cons. unfold py_index. rewrite Hid.
    cbn [result_bind]. rewrite line_amount_run.
    destruct (line_fits products_data (index id) q) eqn:Hq; [|done].
    apply Exists_cons in Hex as [Hex|Hex]; [cbn in Hex; congruence|].
    cbn [result_bind].
    pose proof (amount_value_tame (index id) q) as Ha.
    rewrite rupees_run, (tame_fits _ Ha). cbn [result_bind].
    rewrite py_add_run, tame_operands_fit by done. cbn [result_bind].
    apply IH; [by apply tame_number_add|done].
Qed.

(** The result for quantities that come with enough ids and do not
    overflow. *)
Lemma update_total_amount_fits (quantities : list (option Z))
    (ids : list component_id) :
  quantities <> [] ->
  length quantities <= length ids ->
  Forall fitting (zip ids quantities) ->
  update_total_amount products_data quantities ids
  = Ok (map (fun l => rupees_float
                        (to_float (amount_value products_data (index l.1) l.2)))
          (zip ids quantities),
        "Total Value: "
          ++ rupees_float
               (to_float
                  (foldl number_add (Int 0)
                     (map (fun l => amount_value products_data (index l.1) l.2)
                        (zip ids quantities))))).
Proof.
  intros Hne Hlen Hfit. unfold update_total_amount.
  rewrite (update_total_amount_loop_fits 0 quantities ids [] (Int 0));
    [|done|cbn; lia|by rewrite drop_0].
  rewrite drop_0. cbn [result_bind fst snd app].
  rewrite rupees_run, tame_fits.
  - by destruct quantities.
  - apply tame_foldl; [done|]. apply Forall_forall.
    intros a (l & -> & _)%list_elem_of_fmap. apply amount_value_tame.
Qed.

(** Prices and quantities within the range of a float make every line
    fit. *)
Lemma line_fits_in_range (product_id : string) (quantity : option Z) :
  prices_fit products_data = true ->
  fits_float (default 0%Z quantity) = true ->
  line_fits products_data product_id quantity = true.
Proof.
  unfold prices_fit, line_fits. intros Hp Hq.
  destruct (product_info_of products_data product_id) as [p|] eqn:E; [|done].
  rewrite forallb_forall in Hp.
  rewrite (Hp p), Hq; [done|].
  by apply list_elem_of_In, (product_info_of_elem_of product_id).
Qed.

Lemma lines_fit_in_range (quantities : list (option Z))
    (ids : list component_id) :
  prices_fit products_data = true ->
  quantities_fit quantities = true ->
  Forall fitting (zip ids quantities).
Proof.
  intros Hp Hq. apply Forall_forall. intros [id q] Hin.
  apply elem_of_zip_r in Hin. cbn [fst snd].
  apply line_fits_in_range; [done|].
  unfold quantities_fit in Hq. rewrite forallb_forall in Hq.
  by apply Hq, list_elem_of_In.
Qed.

(** The loop only looks at a quantity through its value, [None] being 0. *)
Lemma update_total_amount_default (quantities quantities' : list (option Z))
    (ids : list component_id) :
  default 0%Z <$> quantities = default 0%Z <$> quantities' ->
  update_total_amount products_data quantities ids
  = update_total_amount products_data quantities' ids.
Proof.
  intros H.
  assert (Hloop : forall idx tv ct,
    update_total_amount_loop products_data idx quantities ids tv ct
    = update_total_amount_loop products_data idx quantities' ids tv ct).
  { revert quantities' H.
    induction quantities as [|q qs IH]; intros [|q' qs'] H idx tv ct;
      try discriminate; [done|].
    cbn [fmap list_fmap] in H. injection H as Hq Hqs.
    rewrite !update_total_amount_loop_cons.
    destruct (py_index ids idx) as [id|]; [|done]. cbn [result_bind].
    unfold line_amount. rewrite Hq.
    destruct (price_of_info _) as [price|]; [|done]. cbn [result_bind].
    destruct (py_mul _ _) as [amount|]; [|done]. cbn [result_bind].
    destruct (rupees amount) as [line|]; [|done]. cbn [result_bind].
    destruct (py_add ct amount) as [ct'|]; [|done]. cbn [result_bind].
    by apply IH. }
  unfold update_total_amount. rewrite Hloop.
  destruct quantities, quantities'; try discriminate; done.
Qed.

End Recompute.





(** ** The submission loop and the sink *)

Lemma quantity_at_lookup (input_values : list (option Z)) (idx : nat) :
  quantity_at input_values idx
  = match input_values !! idx with
    | Some (Some q) => q
    | _ => 0%Z
    end.
Proof.
  unfold quantity_at. destruct (Nat.ltb_spec idx (length input_values)) as [H|H].
  - done.
  - by rewrite lookup_ge_None_2.
Qed.

Lemma quantity_at_drop (input_values : list (option Z)) (n k : nat) :
  quantity_at (drop n input_values) k = quantity_at input_values (n + k).
Proof. by rewrite !quantity_at_lookup, lookup_drop. Qed.

Lemma tick_tick (n m : nat) (w : World) : tick n (tick m w) = tick (n + m) w.
Proof. unfold tick. cbn. f_equal; lia. Qed.

Lemma tick_0 (w : World) : tick 0 w = w.
Proof. by destruct w. Qed.

Lemma sent_sent (n m : nat) (rows rows' : list SubmissionRecord) (w : World) :
  sent n rows (sent m rows' w) = sent (n + m) (rows' ++ rows) w.
Proof. unfold sent. cbn. f_equal; [lia|by rewrite app_assoc]. Qed.

Lemma bind_run {A B : Type} (m : M A) (k : A -> M B) (w : World) :
  bind m k w
  = match m w with
    | (Ok a, w') => k a w'
    | (Raise e, w') => (Raise e, w')
    end.
Proof. reflexivity. Qed.

(** Quantities within the range of a float make every row fit. *)
Lemma row_fits_in_range (input_values : list (option Z)) (k : nat) (p : product) :
  quantities_fit input_values = true ->
  row_fits input_values k p = true.
Proof.
  unfold quantities_fit, row_fits, operands_fit. intros Hq.
  destruct (price_of p) as [z|f]; [done|]. cbn.
  rewrite quantity_at_lookup.
  destruct (input_values !! k) as [[q|]|] eqn:E; try reflexivity.
  rewrite forallb_forall in Hq.
  apply (Hq (Some q)), list_elem_of_In. by eapply list_elem_of_lookup_2.
Qed.

Section Submit.

Variable products_data : list product.
Variables selected_retailer selected_category : option string.
Variable input_values : list (option Z).

Section Rows.

Variables salesperson team email latitude longitude : string.

(** One turn of the loop: the product is computed before the identifier
    is drawn and the clock is read. *)
Lemma submission_row_run (idx : nat) (p : product) (w : World) :
  submission_row selected_retailer selected_category salesperson team email
    input_values latitude longitude idx p w
  = if row_fits input_values idx p
    then (Ok (record_at w selected_retailer selected_category salesperson team
                email (drop idx input_values) latitude longitude 0 p),
          tick 1 w)
    else (Raise OverflowError, w).
Proof.
  unfold submission_row, row_fits. rewrite bind_run. unfold lift.
  rewrite py_mul_run.
  destruct (operands_fit (price_of p) (Int (quantity_at input_values idx)));
    [|done].
  unfold record_at. rewrite quantity_at_drop, Nat.add_0_r. reflexivity.
Qed.

(** The loop either builds one record per product, or stops at the first
    product whose amount overflows, with the identifiers of the products
    before it drawn. *)
Lemma for_enumerate_submission_row (idx : nat) (ps : list product) (w : World) :
  ((forall k p, ps !! k = Some p -> row_fits input_values (idx + k) p = true)
   /\ for_enumerate
        (submission_row selected_retailer selected_category salesperson team
           email input_values latitude longitude) idx ps w
      = (Ok (imap (record_at w selected_retailer selected_category salesperson
                     team email (drop idx input_values) latitude longitude) ps),
         tick (length ps) w))
  \/ (exists k p,
        ps !! k = Some p
        /\ row_fits input_values (idx + k) p = false
        /\ (forall j p',
              j < k -> ps !! j = Some p' ->
              row_fits input_values (idx + j) p' = true)
        /\ for_enumerate
             (submission_row selected_retailer selected_category salesperson
                team email input_values latitude longitude) idx ps w
           = (Raise OverflowError, tick k w)).
Proof.
  revert idx w. induction ps as [|p ps IH]; intros idx w.
  - left. split; [done|]. cbn. unfold ret. by rewrite tick_0.
  - cbn [for_enumerate]. rewrite bind_run, submission_row_run.
    destruct (row_fits input_values idx p) eqn:Hp.
    2: { right. exists 0, p. rewrite Nat.add_0_r, tick_0.
         do 2 (split; [done|]). split; [|done]. intros j p' Hj. lia. }
    rewrite bind_run.
    destruct (IH (S idx) (tick 1 w))
      as [[Hfit ->]|(k & p' & Hk & Hmis & Hfirst & ->)].
    + left. split.
      * intros [|k] p' Hk.
        -- injection Hk as <-. by rewrite Nat.add_0_r.
        -- replace (idx + S k) with (S idx + k) by lia. by apply Hfit.
      * unfold ret. cbn [length imap]. f_equal; [f_equal; f_equal|].
        -- apply imap_ext. intros k x _. unfold record_at, compose. cbn.
           rewrite !quantity_at_drop.
           replace (S idx + k) with (idx + S k) by lia.
           replace (k + S (uuid4_calls w)) with (S (k + uuid4_calls w)) by lia.
           by replace (k + S (now_calls w)) with (S (k + now_calls w)) by lia.
        -- rewrite tick_tick. f_equal. lia.
    + right. exists (S k), p'. split; [done|]. split; [|split].
      * by replace (idx + S k) with (S idx + k) by lia.
      * intros [|j] p'' Hj Hp''.
        -- injection Hp'' as <-. by rewrite Nat.add_0_r.
        -- replace (idx + S j) with (S idx + j) by lia.
           apply (Hfirst j p''); [lia|done].
      * rewrite tick_tick. do 2 f_equal. lia.
Qed.

End Rows.

Variable salesperson_info : option children.
Variable geolocation : option string.

Local Abbreviation products := (filtered_products products_data selected_category).

Local Abbreviation build :=
  (build_submission_data products_data selected_retailer selected_category
     salesperson_info input_values geolocation).

(** A build raises before anything was drawn, or returns one record per
    product of the category, or stops at the first product whose amount
    overflows. *)
Lemma build_submission_data_cases (w : World) :
  (exists sp tm em la lo,
     paragraph_value salesperson_info 0 = Ok sp
     /\ paragraph_value salesperson_info 1 = Ok tm
     /\ paragraph_value salesperson_info 2 = Ok em
     /\ latitude_longitude geolocation = Ok (la, lo)
     /\ (forall k p, products !! k = Some p -> row_fits input_values k p = true)
     /\ build w
        = (Ok (imap (record_at w selected_retailer selected_category sp tm em
                       input_values la lo) products),
           tick (length products) w))
  \/ (exists e,
        build w = (Raise e, w)
        /\ (paragraph_value salesperson_info 0 = Raise e
            \/ paragraph_value salesperson_info 1 = Raise e
            \/ paragraph_value salesperson_info 2 = Raise e
            \/ latitude_longitude geolocation = Raise e))
  \/ (exists k p,
        products !! k = Some p
        /\ row_fits input_values k p = false
        /\ (forall j p',
              j < k -> products !! j = Some p' ->
              row_fits input_values j p' = true)
        /\ build w = (Raise OverflowError, tick k w)).
Proof.
  unfold build_submission_data, bind, lift.
  destruct (paragraph_value salesperson_info 0) as [sp|e];
    [|right; left; exists e; auto].
  destruct (paragraph_value salesperson_info 1) as [tm|e];
    [|right; left; exists e; auto].
  destruct (paragraph_value salesperson_info 2) as [em|e];
    [|right; left; exists e; auto].
  destruct (latitude_longitude geolocation) as [[la lo]|e];
    [|right; left; exists e; auto 6].
  cbn [fst snd].
  destruct (for_enumerate_submission_row sp tm em la lo 0 products w)
    as [[Hfit ->]|(k & p & Hk & Hmis & Hfirst & ->)].
  - left. exists sp, tm, em, la, lo. rewrite drop_0. done.
  - right. right. by exists k, p.
Qed.

Lemma build_submission_data_ok (sp tm em la lo : string) (w : World) :
  paragraph_value salesperson_info 0 = Ok sp ->
  paragraph_value salesperson_info 1 = Ok tm ->
  paragraph_value salesperson_info 2 = Ok em ->
  latitude_longitude geolocation = Ok (la, lo) ->
  quantities_fit input_values = true ->
  build w
  = (Ok (imap (record_at w selected_retailer selected_category sp tm em
                 input_values la lo) products),
     tick (length products) w).
Proof.
  intros H0 H1 H2 Hg Hq.
  destruct (build_submission_data_cases w)
    as [(sp' & tm' & em' & la' & lo' & H0' & H1' & H2' & Hg' & _ & ->)
       |[(e & _ & [He|[He|[He|He]]])|(k & p & _ & Hmis & _ & _)]];
    try congruence.
  by rewrite row_fits_in_range in Hmis.
Qed.

(** What a build that returns has returned. *)
Lemma build_submission_data_inv (rows : list SubmissionRecord) (w w' : World) :
  build w = (Ok rows, w') ->
  exists sp tm em la lo,
    paragraph_value salesperson_info 0 = Ok sp
    /\ paragraph_value salesperson_info 1 = Ok tm
    /\ paragraph_value salesperson_info 2 = Ok em
    /\ latitude_longitude geolocation = Ok (la, lo)
    /\ (forall k p, products !! k = Some p -> row_fits input_values k p = true)
    /\ rows = imap (record_at w selected_retailer selected_category sp tm em
                      input_values la lo) products
    /\ w' = tick (length products) w.
Proof.
  intros Hb.
  destruct (build_submission_data_cases w)
    as [(sp & tm & em & la & lo & H0 & H1 & H2 & Hg & Hfit & Hb')
       |[(e & Hb' & _)|(k & p & _ & _ & _ & Hb')]];
    rewrite Hb in Hb'; [|discriminate..].
  injection Hb' as -> ->. by exists sp, tm, em, la, lo.
Qed.

(** When the salesperson block or the geolocation cannot be read, the
    build raises before anything was drawn. *)
Lemma build_submission_data_unread (e : exn) (w : World) :
  paragraph_value salesperson_info 0 = Raise e
  \/ paragraph_value salesperson_info 1 = Raise e
  \/ paragraph_value salesperson_info 2 = Raise e
  \/ latitude_longitude geolocation = Raise e ->
  exists e', build w = (Raise e', w).
Proof.
  intros H.
  destruct (build_submission_data_cases w)
    as [(sp & tm & em & la & lo & H0 & H1 & H2 & Hg & _)
       |[(e' & Hb & _)|(k & p & _ & _ & _ & Hb)]].
  - destruct H as [H|[H|[H|H]]]; congruence.
  - by exists e'.
  - unfold build_submission_data, bind, lift in *.
    destruct H as [H|[H|[H|H]]].
    + rewrite H. by exists e.
    + destruct (paragraph_value salesperson_info 0); [|by eauto].
      rewrite H. by exists e.
    + destruct (paragraph_value salesperson_info 0); [|by eauto].
      destruct (paragraph_value salesperson_info 1); [|by eauto].
      rewrite H. by exists e.
    + destruct (paragraph_value salesperson_info 0); [|by eauto].
      destruct (paragraph_value salesperson_info 1); [|by eauto].
      destruct (paragraph_value salesperson_info 2); [|by eauto].
      rewrite H. by exists e.
Qed.

End Submit.

Lemma for_each_append_row_cons (r : SubmissionRecord)
    (rows : list SubmissionRecord) (w : World) :
  for_each append_row (r :: rows) w
  = if gspread_raises w (gspread_calls w)
    then (Raise APIError, sent 1 [] w)
    else for_each append_row rows (sent 1 [r] w).
Proof.
  cbn [for_each]. rewrite bind_run. unfold append_row, gspread_call, sent.
  destruct (gspread_raises w (gspread_calls w)); [|done].
  by rewrite app_nil_r.
Qed.

(** The appends stop at the first call that raises; the rows sent before it
    stay in the worksheet. *)
Lemma for_each_append_row_cases (rows : list SubmissionRecord) (w : World) :
  ((forall k, k < length rows -> gspread_raises w (k + gspread_calls w) = false)
   /\ for_each append_row rows w = (Ok tt, sent (length rows) rows w))
  \/ (exists k,
        k < length rows
        /\ gspread_raises w (k + gspread_calls w) = true
        /\ (forall j, j < k -> gspread_raises w (j + gspread_calls w) = false)
        /\ for_each append_row rows w
           = (Raise APIError, sent (S k) (take k rows) w)).
Proof.
  revert w. induction rows as [|r rows IH]; intros w.
  - left. split; [cbn; lia|]. cbn. unfold ret, sent. cbn.
    rewrite app_nil_r. by destruct w.
  - rewrite for_each_append_row_cons.
    destruct (gspread_raises w (gspread_calls w)) eqn:Hr.
    + right. exists 0. cbn [take length].
      split; [lia|]. split; [exact Hr|]. split; [intros j Hj; exfalso; lia|].
      reflexivity.
    + destruct (IH (sent 1 [r] w)) as [[Hok ->]|(k & Hk & Hkr & Hj & ->)];
        cbn [gspread_raises gspread_calls sent] in *.
      * left. split.
        -- intros [|k] Hk; [done|]. cbn in Hk. specialize (Hok k ltac:(lia)).
           by replace (S k + gspread_calls w)
             with (k + S (gspread_calls w)) by lia.
        -- rewrite sent_sent. cbn [length app]. f_equal. f_equal. lia.
      * right. exists (S k). cbn [length take].
        split; [|split; [|split]].
        -- lia.
        -- by replace (S k + gspread_calls w)
             with (k + S (gspread_calls w)) by lia.
        -- intros [|j] Hlt; [done|]. specialize (Hj j ltac:(lia)).
           by replace (S j + gspread_calls w)
             with (j + S (gspread_calls w)) by lia.
        -- rewrite sent_sent. cbn [app]. f_equal. f_equal. lia.
Qed.

Lemma worksheet_Submissions_run (w : World) :
  worksheet_Submissions w
  = (if gspread_raises w (gspread_calls w) then Raise APIError else Ok tt,
     sent 1 [] w).
Proof.
  unfold worksheet_Submissions, gspread_call, sent.
  destruct (gspread_raises w (gspread_calls w)); by rewrite app_nil_r.
Qed.

(** ** The whole callback *)

Section SubmitData.

Variable products_data : list product.
Variable n_clicks : option nat.
Variables selected_retailer selected_category : option string.
Variable salesperson_info : option children.
Variable input_values : list (option Z).
Variable geolocation : option string.

Lemma submit_data_incomplete (w : World) :
  negb (truthy_nat n_clicks) || negb (truthy_str selected_retailer)
    || negb (truthy_str selected_category) = true ->
  submit_data products_data n_clicks selected_retailer selected_category
    salesperson_info input_values geolocation w
  = (Ok (msg_incomplete, false), w).
Proof. intros H. unfold submit_data. by rewrite H. Qed.

Lemma submit_data_build_raises (e : exn) (w w1 : World) :
  negb (truthy_nat n_clicks) || negb (truthy_str selected_retailer)
    || negb (truthy_str selected_category) = false ->
  build_submission_data products_data selected_retailer selected_category
    salesperson_info input_values geolocation w
  = (Raise e, w1) ->
  submit_data products_data n_clicks selected_retailer selected_category
    salesperson_info input_values geolocation w
  = (Ok (msg_error, false), w1).
Proof.
  intros Hg Hb. unfold submit_data, try_except. by rewrite Hg, bind_run, Hb.
Qed.

(** What [submit_data] does once the records are built: it looks the
    worksheet up, then appends the records one by one, and gives up at the
    first call that raises. *)
Lemma submit_data_built (rows : list SubmissionRecord) (w w1 : World) :
  negb (truthy_nat n_clicks) || negb (truthy_str selected_retailer)
    || negb (truthy_str selected_category) = false ->
  build_submission_data products_data selected_retailer selected_category
    salesperson_info input_values geolocation w
  = (Ok rows, w1) ->
  submit_data products_data n_clicks selected_retailer selected_category
    salesperson_info input_values geolocation w
  = if gspread_raises w1 (gspread_calls w1)
    then (Ok (msg_error, false), sent 1 [] w1)
    else
      match for_each append_row rows (sent 1 [] w1) with
      | (Ok _, w') =>
          (Ok (msg_success selected_retailer selected_category, true), w')
      | (Raise _, w') => (Ok (msg_error, false), w')
      end.
Proof.
  intros Hg Hb. unfold submit_data, try_except.
  rewrite Hg, bind_run, Hb, bind_run, worksheet_Submissions_run.
  destruct (gspread_raises w1 (gspread_calls w1)); [done|].
  rewrite bind_run. by destruct (for_each append_row rows (sent 1 [] w1)) as [[[]|e] w'].
Qed.

Local Abbreviation guard :=
  (negb (truthy_nat n_clicks) || negb (truthy_str selected_retailer)
   || negb (truthy_str selected_category)).

Local Abbreviation products := (filtered_products products_data selected_category).

Local Abbreviation run :=
  (submit_data products_data n_clicks selected_retailer selected_category
     salesperson_info input_values geolocation).

(** Every way a submission can end. *)
Lemma submit_data_outcomes (w : World) :
  (guard = true /\ run w = (Ok (msg_incomplete, false), w))
  \/ (guard = false
      /\ run w = (Ok (msg_error, false), w)
      /\ exists e,
           paragraph_value salesperson_info 0 = Raise e
           \/ paragraph_value salesperson_info 1 = Raise e
           \/ paragraph_value salesperson_info 2 = Raise e
           \/ latitude_longitude geolocation = Raise e)
  \/ (guard = false
      /\ exists k p,
           products !! k = Some p
           /\ row_fits input_values k p = false
           /\ (forall j p',
                 j < k -> products !! j = Some p' ->
                 row_fits input_values j p' = true)
           /\ run w = (Ok (msg_error, false), tick k w))
  \/ (guard = false
      /\ exists sp tm em la lo,
           paragraph_value salesperson_info 0 = Ok sp
           /\ paragraph_value salesperson_info 1 = Ok tm
           /\ paragraph_value salesperson_info 2 = Ok em
           /\ latitude_longitude geolocation = Ok (la, lo)
           /\ (forall k p,
                 products !! k = Some p -> row_fits input_values k p = true)
           /\ ((gspread_raises w (gspread_calls w) = true
                /\ run w
                   = (Ok (msg_error, false),
                      sent 1 [] (tick (length products) w)))
               \/ (gspread_raises w (gspread_calls w) = false
                   /\ exists k,
                        k < length products
                        /\ gspread_raises w (S k + gspread_calls w) = true
                        /\ (forall j, j < k ->
                                      gspread_raises w (S j + gspread_calls w)
                                      = false)
                        /\ run w
                           = (Ok (msg_error, false),
                              sent (S (S k))
                                (take k
                                   (imap (record_at w selected_retailer
                                            selected_category sp tm em
                                            input_values la lo) products))
                                (tick (length products) w)))
               \/ ((forall k, k <= length products ->
                              gspread_raises w (k + gspread_calls w) = false)
                   /\ run w
                      = (Ok (msg_success selected_retailer selected_category,
                             true),
                         sent (S (length products))
                           (imap (record_at w selected_retailer
                                    selected_category sp tm em input_values
                                    la lo) products)
                           (tick (length products) w))))).
Proof.
  destruct guard eqn:Hg.
  { left. split; [done|]. by apply submit_data_incomplete. }
  right.
  destruct (build_submission_data_cases products_data selected_retailer
              selected_category input_values salesperson_info geolocation w)
    as [(sp & tm & em & la & lo & H0 & H1 & H2 & Hgeo & Hfit & Hb)
       |[(e & Hb & He)|(k & p & Hk & Hmis & Hfirst & Hb)]].
  2: { left. split; [done|]. split; [|by exists e].
       by apply (submit_data_build_raises e). }
  2: { right. left. split; [done|]. exists k, p. do 3 (split; [done|]).
       by apply (submit_data_build_raises OverflowError). }
  right. right. split; [done|]. exists sp, tm, em, la, lo.
  do 5 (split; [done|]).
  rewrite (submit_data_built _ _ _ Hg Hb).
  cbn [gspread_raises gspread_calls tick].
  destruct (gspread_raises w (gspread_calls w)) eqn:Hws; [by left|].
  right.
  match goal with
  | |- context [for_each append_row ?rows ?w1] =>
      destruct (for_each_append_row_cases rows w1)
        as [[Hok ->]|(k & Hk & Hfail & Hbefore & ->)];
        cbn [gspread_raises gspread_calls tick sent] in *
  end.
  - right. split.
    + intros [|k] Hk; [done|]. rewrite length_imap in Hok.
      specialize (Hok k ltac:(lia)).
      by replace (S k + gspread_calls w) with (k + (1 + gspread_calls w)) by lia.
    + rewrite sent_sent, length_imap. cbn [app]. do 2 f_equal. lia.
  - left. split; [done|]. rewrite length_imap in Hk. exists k.
    split; [done|]. split.
    { by replace (S k + gspread_calls w) with (k + (1 + gspread_calls w)) by lia. }
    split.
    { intros j Hj. specialize (Hbefore j Hj).
      by replace (S j + gspread_calls w) with (j + (1 + gspread_calls w)) by lia. }
    rewrite sent_sent. cbn [app]. do 2 f_equal. lia.
Qed.

(** A submission that reports success built its records and sent them all. *)
Lemma submit_data_displayed (msg : string) (w w' : World) :
  run w = (Ok (msg, true), w') ->
  exists sp tm em la lo,
    let n := length products in
    let rows :=
      imap (record_at w selected_retailer selected_category sp tm em
              input_values la lo) products in
    latitude_longitude geolocation = Ok (la, lo)
    /\ w' = sent (S n) rows (tick n w).
Proof.
  intros H.
  destruct (submit_data_outcomes w)
    as [[_ Hr]|[(_ & Hr & _)|[(_ & k & p & _ & _ & _ & Hr)
       |(_ & sp & tm & em & la & lo & _ & _ & _ & Hgeo & _
         & [[_ Hr]|[(_ & k & _ & _ & _ & Hr)|[_ Hr]]])]]];
    rewrite Hr in H; try discriminate.
  injection H as _ <-. by exists sp, tm, em, la, lo.
Qed.

End SubmitData.

(** The page has one quantity input per product of the category, named
    after the product. *)
Lemma update_product_inputs_ids (products_data : list product)
    (selected_category : option string) :
  truthy_str selected_category = true ->
  input_ids (update_product_inputs products_data selected_category)
  = map (fun p => input_id (Product_name p))
      (filtered_products products_data selected_category).
Proof.
  intros Hc. unfold update_product_inputs. rewrite Hc. cbn [negb].
  destruct (filtered_products products_data selected_category) as [|p ps];
    [done|].
  cbn [input_ids]. by rewrite map_map.
Qed.


(** * The order computation engine *)






(** C6.  The quantity input is declared with [min=0], but
    [update_total_amount] takes the value it is handed as it is: for the
    quantity -3 the line and the total come out negative, where the
    quantity 0 gives zeros. *)
Theorem negative_quantity_is_multiplied :
  update_total_amount snacks_products [Some (-3)%Z; None]
    [input_id "Chips"; input_id "Cola"]
  = Ok (["₹-60.00"; "₹0.00"], "Total Value: ₹-60.00")
  /\ update_total_amount snacks_products [Some 0%Z; None]
       [input_id "Chips"; input_id "Cola"]
     = Ok (["₹0.00"; "₹0.00"], "Total Value: ₹0.00")
  /\ update_total_amount snacks_products [Some (-3)%Z; None]
       [input_id "Chips"; input_id "Cola"]
     <> update_total_amount snacks_products [Some 0%Z; None]
          [input_id "Chips"; input_id "Cola"].
Proof. vm_compute. repeat split; discriminate. Qed.

(** * The submission builder *)

Section Records.

Variable w : World.
Variables selected_retailer selected_category : option string.
Variables salesperson team email : string.
Variable input_values : list (option Z).
Variables latitude longitude : string.
Variable ps : list product.

Local Abbreviation rows :=
  (imap (record_at w selected_retailer selected_category salesperson team email
           input_values latitude longitude) ps).

Lemma rows_lookup (i : nat) (rec : SubmissionRecord) :
  rows !! i = Some rec <->
  exists p,
    ps !! i = Some p
    /\ rec = record_at w selected_retailer selected_category salesperson team
               email input_values latitude longitude i p.
Proof. apply list_lookup_imap_Some. Qed.

Lemma rows_elem_of (rec : SubmissionRecord) :
  rec ∈ rows ->
  exists i p,
    ps !! i = Some p
    /\ rec = record_at w selected_retailer selected_category salesperson team
               email input_values latitude longitude i p.
Proof.
  intros (i & p & -> & Hp)%elem_of_lookup_imap_1. by exists i, p.
Qed.

Lemma rows_Product : map Product rows = map Product_name ps.
Proof.
  change (Product <$> rows = Product_name <$> ps).
  rewrite fmap_imap. apply (imap_const Product_name).
Qed.

Lemma rows_Unique_ID :
  map Unique_ID rows
  = map (fun k => uuid4_src w (k + uuid4_calls w)) (seq 0 (length ps)).
Proof.
  change (Unique_ID <$> rows
          = (fun k => uuid4_src w (k + uuid4_calls w)) <$> seq 0 (length ps)).
  rewrite fmap_imap.
  apply (imap_seq_0 ps (fun k => uuid4_src w (k + uuid4_calls w))).
Qed.

End Records.








(** C4, as stated, fails: the clock is read once per record, and the two
    records of one successful submission carry two different readings. *)
Lemma shared_timestamp_counterexample :
  let run :=
    submit_data snacks_products (Some 1) (Some "Corner Shop") (Some "Snacks")
      (Some (update_salesperson_info [corner_shop] (Some "Corner Shop")))
      [Some 3%Z; Some 0%Z] None counting_world in
  run.1 = Ok (msg_success (Some "Corner Shop") (Some "Snacks"), true)
  /\ map Timestamp (Submissions run.2) = ["0"; "1"]
  /\ ~ (forall r1 r2,
          r1 ∈ Submissions run.2 -> r2 ∈ Submissions run.2 ->
          Timestamp r1 = Timestamp r2).
Proof.
  cbv zeta. split; [reflexivity|]. split; [reflexivity|].
  intros H.
  set (run := submit_data _ _ _ _ _ _ _ _) in H.
  assert (Hts : map Timestamp (Submissions run.2) = ["0"; "1"]) by reflexivity.
  destruct (Submissions run.2) as [|r1 [|r2 [|r3 rest]]]; try discriminate.
  injection Hts as Hr1 Hr2.
  specialize (H r1 r2 ltac:(left) ltac:(right; left)). congruence.
Qed.

(** C4, amended.  The records sent by one successful submission all carry
    the latitude and longitude that were read once, before the loop; the
    k-th record carries the k-th reading of the clock made during the
    build, so the timestamps agree when these readings do. *)
Theorem shared_coordinates_clock_per_record (products_data : list product)
    (n_clicks : option nat) (selected_retailer selected_category : option string)
    (salesperson_info : option children) (input_values : list (option Z))
    (geolocation : option string) (msg : string) (w w' : World) :
  submit_data products_data n_clicks selected_retailer selected_category
    salesperson_info input_values geolocation w
  = (Ok (msg, true), w') ->
  exists submission_data latitude longitude,
    Submissions w' = (Submissions w ++ submission_data)%list
    /\ length submission_data
       = length (filtered_products products_data selected_category)
    /\ latitude_longitude geolocation = Ok (latitude, longitude)
    /\ (forall rec,
          rec ∈ submission_data ->
          Latitude rec = latitude /\ Longitude rec = longitude)
    /\ (forall k rec,
          submission_data !! k = Some rec ->
          Timestamp rec = now_src w (k + now_calls w))
    /\ now_calls w' = length submission_data + now_calls w.
Proof.
  intros (sp & tm & em & la & lo & Hgeo & ->)%submit_data_displayed.
  eexists _, la, lo. split; [reflexivity|]. split; [apply length_imap|].
  split; [done|]. split; [|split].
  - by intros rec (i & p & _ & ->)%rows_elem_of.
  - by intros k rec (p & _ & ->)%rows_lookup.
  - cbn. by rewrite length_imap.
Qed.

Lemma shared_coordinates_clock_per_record_witness :
  let w' :=
    sent 3
      (imap (record_at counting_world (Some "Corner Shop") (Some "Snacks")
               "Asha" "North" "asha@example.org" [Some 3%Z; Some 0%Z]
               "12.97" "77.59")
         [chips; cola])
      (tick 2 counting_world) in
  submit_data snacks_products (Some 1) (Some "Corner Shop") (Some "Snacks")
    (Some (update_salesperson_info [corner_shop] (Some "Corner Shop")))
    [Some 3%Z; Some 0%Z] (Some "12.97,77.59") counting_world
  = (Ok (msg_success (Some "Corner Shop") (Some "Snacks"), true), w')
  /\ exists submission_data latitude longitude,
       Submissions w' = (Submissions counting_world ++ submission_data)%list
       /\ length submission_data
          = length (filtered_products snacks_products (Some "Snacks"))
       /\ latitude_longitude (Some "12.97,77.59") = Ok (latitude, longitude)
       /\ (forall rec,
             rec ∈ submission_data ->
             Latitude rec = latitude /\ Longitude rec = longitude)
       /\ (forall k rec,
             submission_data !! k = Some rec ->
             Timestamp rec
             = now_src counting_world (k + now_calls counting_world))
       /\ now_calls w' = length submission_data + now_calls counting_world.
Proof.
  cbv zeta.
  assert (Hrun :
    submit_data snacks_products (Some 1) (Some "Corner Shop") (Some "Snacks")
      (Some (update_salesperson_info [corner_shop] (Some "Corner Shop")))
      [Some 3%Z; Some 0%Z] (Some "12.97,77.59") counting_world
    = (Ok (msg_success (Some "Corner Shop") (Some "Snacks"), true),
       sent 3
         (imap (record_at counting_world (Some "Corner Shop") (Some "Snacks")
                  "Asha" "North" "asha@example.org" [Some 3%Z; Some 0%Z]
                  "12.97" "77.59")
            [chips; cola])
         (tick 2 counting_world)))
    by reflexivity.
  split; [exact Hrun|].
  exact (shared_coordinates_clock_per_record _ _ _ _ _ _ _ _ _ _ Hrun).
Defined.

(** C5, as stated, fails: nothing checks that the salesperson's name, team
    and email are filled in.  With a blank "Salesperson" cell the
    submission succeeds and both rows are sent, with an empty name. *)
Lemma blank_salesperson_counterexample :
  let run :=
    submit_data snacks_products (Some 1) (Some "Corner Shop") (Some "Snacks")
      (Some (update_salesperson_info [unstaffed_shop] (Some "Corner Shop")))
      [Some 3%Z; Some 0%Z] None counting_world in
  Retailer_Salesperson unstaffed_shop = EmptyString
  /\ run.1 = Ok (msg_success (Some "Corner Shop") (Some "Snacks"), true)
  /\ map Salesperson (Submissions run.2) = [EmptyString; EmptyString]
  /\ map Product (Submissions run.2) = ["Chips"; "Cola"].
Proof. cbv zeta. repeat split; reflexivity. Qed.

(** [submit_data] does not look the retailer up: it reads the salesperson
    block that the page holds.  With the block of an earlier selection
    still there, a retailer that is not in the catalog is submitted. *)
Example stale_block_is_submitted :
  let run :=
    submit_data snacks_products (Some 1) (Some "Village Store") (Some "Snacks")
      (Some (update_salesperson_info [corner_shop] (Some "Corner Shop")))
      [Some 3%Z; Some 0%Z] None counting_world in
  known_retailer [corner_shop] (Some "Village Store") = false
  /\ run.1 = Ok (msg_success (Some "Village Store") (Some "Snacks"), true)
  /\ map Retailer (Submissions run.2) = ["Village Store"; "Village Store"].
Proof. cbv zeta. repeat split; reflexivity. Qed.

(** C5, amended.  When no category is selected, or no retailer, or the
    salesperson block that the page holds is not made of three paragraphs
    "label: value" (one of the three reads raises), the submission answers
    with an error message and [displayed = False], and leaves the world as
    it was: no identifier drawn, no call to the Sheets API, no row added.
    The block that [update_salesperson_info] renders for a retailer that
    is not in the catalog is such a block. *)
Theorem rejected_submission_sends_nothing (products_data : list product)
    (n_clicks : option nat) (selected_retailer selected_category : option string)
    (salesperson_info : option children) (input_values : list (option Z))
    (geolocation : option string) (w : World) :
  truthy_str selected_category = false
  \/ truthy_str selected_retailer = false
  \/ (exists e,
        paragraph_value salesperson_info 0 = Raise e
        \/ paragraph_value salesperson_info 1 = Raise e
        \/ paragraph_value salesperson_info 2 = Raise e) ->
  (exists msg,
     submit_data products_data n_clicks selected_retailer selected_category
       salesperson_info input_values geolocation w
     = (Ok (msg, false), w)
     /\ (msg = msg_incomplete \/ msg = msg_error))
  /\ forall retailers_data,
       known_retailer retailers_data selected_retailer = false ->
       exists e,
         paragraph_value
           (Some (update_salesperson_info retailers_data selected_retailer)) 0
         = Raise e.
Proof.
  intros H. split; [|intros rs; apply unknown_retailer_raises].
  destruct (negb (truthy_nat n_clicks) || negb (truthy_str selected_retailer)
            || negb (truthy_str selected_category)) eqn:Hg.
  { exists msg_incomplete. split; [by apply submit_data_incomplete|by left]. }
  pose proof Hg as Hg'.
  apply orb_false_elim in Hg' as [Hg' Hc]. apply orb_false_elim in Hg' as [_ Hr].
  apply negb_false_iff in Hc, Hr.
  destruct H as [H|[H|[e H]]]; [congruence..|].
  destruct (build_submission_data_unread products_data selected_retailer
              selected_category input_values salesperson_info geolocation e w)
    as [e' Hb]; [tauto|].
  exists msg_error. split; [|by right].
  by apply (submit_data_build_raises _ _ _ _ _ _ _ e').
Qed.

Lemma rejected_submission_sends_nothing_witness :
  let info := Some (update_salesperson_info [corner_shop] (Some "Village Store")) in
  (truthy_str (Some "Snacks") = false
   \/ truthy_str (Some "Village Store") = false
   \/ (exists e,
         paragraph_value info 0 = Raise e
         \/ paragraph_value info 1 = Raise e
         \/ paragraph_value info 2 = Raise e))
  /\ (exists msg,
        submit_data snacks_products (Some 1) (Some "Village Store") (Some "Snacks")
          info [Some 3%Z; Some 0%Z] None counting_world
        = (Ok (msg, false), counting_world)
        /\ (msg = msg_incomplete \/ msg = msg_error))
  /\ forall retailers_data,
       known_retailer retailers_data (Some "Village Store") = false ->
       exists e,
         paragraph_value
           (Some (update_salesperson_info retailers_data (Some "Village Store"))) 0
         = Raise e.
Proof.
  cbv zeta.
  assert (H : truthy_str (Some "Snacks") = false
              \/ truthy_str (Some "Village Store") = false
              \/ (exists e,
                    paragraph_value
                      (Some (update_salesperson_info [corner_shop]
                               (Some "Village Store"))) 0 = Raise e
                    \/ paragraph_value
                         (Some (update_salesperson_info [corner_shop]
                                  (Some "Village Store"))) 1 = Raise e
                    \/ paragraph_value
                         (Some (update_salesperson_info [corner_shop]
                                  (Some "Village Store"))) 2 = Raise e))
    by (right; right; exists TypeError; left; reflexivity).
  split; [exact H|].
  exact (rejected_submission_sends_nothing snacks_products (Some 1)
           (Some "Village Store") (Some "Snacks")
           (Some (update_salesperson_info [corner_shop] (Some "Village Store")))
           [Some 3%Z; Some 0%Z] None counting_world H).
Defined.

(** C7.  Every record takes its own draw of [uuid4]: as long as the
    generator never returns the same value twice, the records of one build
    have pairwise distinct identifiers, and a later build on the same draft
    shares no identifier with an earlier one. *)
Theorem unique_ids_never_reused (products_data : list product)
    (selected_retailer selected_category : option string)
    (salesperson_info : option children) (input_values : list (option Z))
    (geolocation : option string) (w1 w1' w2 w2' : World)
    (first second : list SubmissionRecord) :
  (forall i j, uuid4_src w1 i = uuid4_src w1 j -> i = j) ->
  build_submission_data products_data selected_retailer selected_category
    salesperson_info input_values geolocation w1
  = (Ok first, w1') ->
  uuid4_src w2 = uuid4_src w1 ->
  uuid4_calls w1' <= uuid4_calls w2 ->
  build_submission_data products_data selected_retailer selected_category
    salesperson_info input_values geolocation w2
  = (Ok second, w2') ->
  NoDup (map Unique_ID (first ++ second))
  /\ length (map Unique_ID first)
     = length (filtered_products products_data selected_category)
  /\ uuid4_calls w1' = length first + uuid4_calls w1.
Proof.
  intros Hinj Hb1 Hsrc Hlater Hb2.
  apply build_submission_data_inv in Hb1
    as (sp & tm & em & la & lo & _ & _ & _ & _ & _ & -> & ->).
  apply build_submission_data_inv in Hb2
    as (sp2 & tm2 & em2 & la2 & lo2 & _ & _ & _ & _ & _ & -> & ->).
  cbn [uuid4_calls tick] in Hlater.
  set (ps := filtered_products products_data selected_category) in *.
  split; [|split].
  - rewrite map_app, !rows_Unique_ID, Hsrc.
    change (map ?f ?l) with (f <$> l).
    apply NoDup_app. split; [|split].
    + apply NoDup_fmap_2_strong; [|apply NoDup_seq].
      intros i j _ _ Hij. apply Hinj in Hij. lia.
    + intros x (i & -> & Hi)%list_elem_of_fmap (j & Hij & Hj)%list_elem_of_fmap.
      apply Hinj in Hij. apply elem_of_seq in Hi, Hj. lia.
    + apply NoDup_fmap_2_strong; [|apply NoDup_seq].
      intros i j _ _ Hij. apply Hinj in Hij. lia.
  - by rewrite length_map, length_imap.
  - cbn. by rewrite length_imap.
Qed.

Lemma unique_ids_never_reused_witness :
  let info := Some (update_salesperson_info [corner_shop] (Some "Corner Shop")) in
  let first :=
    imap (record_at counting_world (Some "Corner Shop") (Some "Snacks")
            "Asha" "North" "asha@example.org" [Some 3%Z; Some 0%Z] "0" "0")
      [chips; cola] in
  let second :=
    imap (record_at (tick 2 counting_world) (Some "Corner Shop") (Some "Snacks")
            "Asha" "North" "asha@example.org" [Some 3%Z; Some 0%Z] "0" "0")
      [chips; cola] in
  (forall i j, uuid4_src counting_world i = uuid4_src counting_world j -> i = j)
  /\ build_submission_data snacks_products (Some "Corner Shop") (Some "Snacks")
       info [Some 3%Z; Some 0%Z] None counting_world
     = (Ok first, tick 2 counting_world)
  /\ uuid4_src (tick 2 counting_world) = uuid4_src counting_world
  /\ uuid4_calls (tick 2 counting_world) <= uuid4_calls (tick 2 counting_world)
  /\ build_submission_data snacks_products (Some "Corner Shop") (Some "Snacks")
       info [Some 3%Z; Some 0%Z] None (tick 2 counting_world)
     = (Ok second, tick 2 (tick 2 counting_world))
  /\ NoDup (map Unique_ID (first ++ second))
  /\ length (map Unique_ID first)
     = length (filtered_products snacks_products (Some "Snacks"))
  /\ uuid4_calls (tick 2 counting_world)
     = length first + uuid4_calls counting_world.
Proof.
  cbv zeta.
  assert (Hinj : forall i j,
            uuid4_src counting_world i = uuid4_src counting_world j -> i = j)
    by (intros i j Hij; exact (pretty_nat_inj i j Hij)).
  split; [exact Hinj|]. split; [reflexivity|]. split; [reflexivity|].
  split; [reflexivity|]. split; [reflexivity|].
  apply (unique_ids_never_reused snacks_products (Some "Corner Shop")
           (Some "Snacks")
           (Some (update_salesperson_info [corner_shop] (Some "Corner Shop")))
           [Some 3%Z; Some 0%Z] None counting_world (tick 2 counting_world)
           (tick 2 counting_world) (tick 2 (tick 2 counting_world)));
    [exact Hinj|reflexivity|reflexivity|reflexivity|reflexivity].
Defined.

(** C8.  When the records are built, the worksheet is found and the append
    of the record at position [k] is the first to fail, the submission
    answers with the error message and [displayed = False]; the [k] records
    before it are in the worksheet, after the rows that were there, and
    the failing call was the last one made: no retry, no further append. *)
Theorem append_failure_is_reported (products_data : list product)
    (n_clicks : option nat) (selected_retailer selected_category : option string)
    (salesperson_info : option children) (input_values : list (option Z))
    (geolocation : option string) (submission_data : list SubmissionRecord)
    (k : nat) (w w1 : World) :
  truthy_nat n_clicks = true ->
  truthy_str selected_retailer = true ->
  truthy_str selected_category = true ->
  build_submission_data products_data selected_retailer selected_category
    salesperson_info input_values geolocation w
  = (Ok submission_data, w1) ->
  gspread_raises w (gspread_calls w) = false ->
  k < length submission_data ->
  (forall j, j < k -> gspread_raises w (S j + gspread_calls w) = false) ->
  gspread_raises w (S k + gspread_calls w) = true ->
  exists w',
    submit_data products_data n_clicks selected_retailer selected_category
      salesperson_info input_values geolocation w
    = (Ok (msg_error, false), w')
    /\ Submissions w' = (Submissions w ++ take k submission_data)%list
    /\ gspread_calls w' = S (S k) + gspread_calls w.
Proof.
  intros Hn Hr Hc Hb Hws Hk Hbefore Hfail.
  assert (Hg : negb (truthy_nat n_clicks) || negb (truthy_str selected_retailer)
               || negb (truthy_str selected_category) = false)
    by (by rewrite Hn, Hr, Hc).
  rewrite (submit_data_built _ _ _ _ _ _ _ _ _ _ Hg Hb).
  apply build_submission_data_inv in Hb
    as (sp & tm & em & la & lo & _ & _ & _ & _ & _ & Hrows & ->).
  cbn [gspread_raises gspread_calls tick]. rewrite Hws.
  match goal with
  | |- context [for_each append_row ?rows ?w1] =>
      destruct (for_each_append_row_cases rows w1)
        as [[Hok _]|(k' & Hk' & Hfail' & Hbefore' & ->)];
        cbn [gspread_raises gspread_calls tick sent] in *
  end.
  - specialize (Hok k Hk).
    replace (k + (1 + gspread_calls w)) with (S k + gspread_calls w) in Hok by lia.
    congruence.
  - assert (k' = k) as ->.
    { destruct (Nat.lt_trichotomy k' k) as [Hlt|[Heq|Hgt]]; [|done|].
      - specialize (Hbefore k' Hlt).
        replace (k' + (1 + gspread_calls w)) with (S k' + gspread_calls w)
          in Hfail' by lia.
        congruence.
      - specialize (Hbefore' k Hgt).
        replace (k + (1 + gspread_calls w)) with (S k + gspread_calls w)
          in Hbefore' by lia.
        congruence. }
    eexists. split; [reflexivity|]. cbn. split; [by rewrite app_nil_r|lia].
Qed.

Lemma append_failure_is_reported_witness :
  let info := Some (update_salesperson_info [corner_shop] (Some "Corner Shop")) in
  let submission_data :=
    imap (record_at failing_world (Some "Corner Shop") (Some "Snacks")
            "Asha" "North" "asha@example.org" [Some 3%Z; Some 0%Z] "0" "0")
      [chips; cola] in
  truthy_nat (Some 1) = true
  /\ truthy_str (Some "Corner Shop") = true
  /\ truthy_str (Some "Snacks") = true
  /\ build_submission_data snacks_products (Some "Corner Shop") (Some "Snacks")
       info [Some 3%Z; Some 0%Z] None failing_world
     = (Ok submission_data, tick 2 failing_world)
  /\ gspread_raises failing_world (gspread_calls failing_world) = false
  /\ 1 < length submission_data
  /\ (forall j,
        j < 1 ->
        gspread_raises failing_world (S j + gspread_calls failing_world) = false)
  /\ gspread_raises failing_world (2 + gspread_calls failing_world) = true
  /\ exists w',
       submit_data snacks_products (Some 1) (Some "Corner Shop") (Some "Snacks")
         info [Some 3%Z; Some 0%Z] None failing_world
       = (Ok (msg_error, false), w')
       /\ Submissions w'
          = (Submissions failing_world ++ take 1 submission_data)%list
       /\ gspread_calls w' = 3 + gspread_calls failing_world.
Proof.
  cbv zeta.
  assert (Hbefore : forall j,
            j < 1 ->
            gspread_raises failing_world (S j + gspread_calls failing_world)
            = false)
    by (intros [|j] Hj; [reflexivity|exfalso; lia]).
  split; [reflexivity|]. split; [reflexivity|]. split; [reflexivity|].
  split; [reflexivity|]. split; [reflexivity|]. split; [cbn; lia|].
  split; [exact Hbefore|]. split; [reflexivity|].
  apply (append_failure_is_reported snacks_products (Some 1)
           (Some "Corner Shop") (Some "Snacks")
           (Some (update_salesperson_info [corner_shop] (Some "Corner Shop")))
           [Some 3%Z; Some 0%Z] None _ 1 failing_world (tick 2 failing_world));
    [reflexivity|reflexivity|reflexivity|reflexivity|reflexivity|cbn; lia
    |exact Hbefore|reflexivity].
Defined.

(** C9.  When the geolocation is absent ([None] or the empty text), every
    record that the build of a known retailer's order returns has Latitude
    "0" and Longitude "0", and there is one such record per product of the
    category.  The build does return when the entered quantities are
    within the range of a float. *)
Theorem absent_geolocation_defaults (retailers_data : list retailer)
    (products_data : list product)
    (selected_retailer selected_category : option string)
    (input_values : list (option Z)) (geolocation : option string) (w : World) :
  known_retailer retailers_data selected_retailer = true ->
  truthy_str geolocation = false ->
  (forall submission_data w',
     build_submission_data products_data selected_retailer selected_category
       (Some (update_salesperson_info retailers_data selected_retailer))
       input_values geolocation w
     = (Ok submission_data, w') ->
     length submission_data
     = length (filtered_products products_data selected_category)
     /\ forall rec,
          rec ∈ submission_data -> Latitude rec = "0" /\ Longitude rec = "0")
  /\ (quantities_fit input_values = true ->
      exists submission_data w',
        build_submission_data products_data selected_retailer selected_category
          (Some (update_salesperson_info retailers_data selected_retailer))
          input_values geolocation w
        = (Ok submission_data, w')).
Proof.
  intros Hret Hgeo.
  assert (Hll : latitude_longitude geolocation = Ok ("0", "0"))
    by (unfold latitude_longitude; by rewrite Hgeo).
  split.
  - intros submission_data w' Hb.
    apply build_submission_data_inv in Hb
      as (sp & tm & em & la & lo & _ & _ & _ & Hll' & _ & -> & _).
    rewrite Hll in Hll'. injection Hll' as <- <-.
    split; [apply length_imap|].
    by intros rec (i & p & _ & ->)%rows_elem_of.
  - intros Hq.
    destruct (known_retailer_paragraphs retailers_data selected_retailer Hret)
      as (sp & tm & em & H0 & H1 & H2).
    eexists _, _. by eapply build_submission_data_ok.
Qed.

Lemma absent_geolocation_defaults_witness :
  known_retailer [corner_shop] (Some "Corner Shop") = true
  /\ truthy_str None = false
  /\ quantities_fit [Some 3%Z; Some 0%Z] = true
  /\ (forall submission_data w',
        build_submission_data snacks_products (Some "Corner Shop") (Some "Snacks")
          (Some (update_salesperson_info [corner_shop] (Some "Corner Shop")))
          [Some 3%Z; Some 0%Z] None counting_world
        = (Ok submission_data, w') ->
        length submission_data
        = length (filtered_products snacks_products (Some "Snacks"))
        /\ forall rec,
             rec ∈ submission_data -> Latitude rec = "0" /\ Longitude rec = "0")
  /\ (quantities_fit [Some 3%Z; Some 0%Z] = true ->
      exists submission_data w',
        build_submission_data snacks_products (Some "Corner Shop") (Some "Snacks")
          (Some (update_salesperson_info [corner_shop] (Some "Corner Shop")))
          [Some 3%Z; Some 0%Z] None counting_world
        = (Ok submission_data, w')).
Proof.
  split; [reflexivity|]. split; [reflexivity|]. split; [reflexivity|].
  apply (absent_geolocation_defaults [corner_shop] snacks_products
           (Some "Corner Shop") (Some "Snacks") [Some 3%Z; Some 0%Z] None
           counting_world); reflexivity.
Defined.

(** C10.  Whatever the list of entered values, a build that returns has
    returned one record per product of the category, the record at
    position [i] being that of the [i]-th product with the [i]-th entered
    value as Quantity, and Quantity 0 when the list stops before [i] or
    holds [None] there.  The build does return when the entered values are
    within the range of a float. *)
Theorem missing_quantity_recorded_as_zero (retailers_data : list retailer)
    (products_data : list product)
    (selected_retailer selected_category : option string)
    (input_values : list (option Z)) (geolocation : option string)
    (latitude longitude : string) (w : World) :
  known_retailer retailers_data selected_retailer = true ->
  latitude_longitude geolocation = Ok (latitude, longitude) ->
  (forall submission_data w',
     build_submission_data products_data selected_retailer selected_category
       (Some (update_salesperson_info retailers_data selected_retailer))
       input_values geolocation w
     = (Ok submission_data, w') ->
     length submission_data
     = length (filtered_products products_data selected_category)
     /\ forall i p,
          filtered_products products_data selected_category !! i = Some p ->
          exists rec,
            submission_data !! i = Some rec
            /\ Product rec = Product_name p
            /\ (length input_values <= i -> Quantity rec = 0%Z)
            /\ (input_values !! i = Some None -> Quantity rec = 0%Z)
            /\ (forall q, input_values !! i = Some (Some q) -> Quantity rec = q))
  /\ (quantities_fit input_values = true ->
      exists submission_data w',
        build_submission_data products_data selected_retailer selected_category
          (Some (update_salesperson_info retailers_data selected_retailer))
          input_values geolocation w
        = (Ok submission_data, w')).
Proof.
  intros Hret Hgeo. split.
  - intros submission_data w' Hb.
    apply build_submission_data_inv in Hb
      as (sp & tm & em & la & lo & _ & _ & _ & _ & _ & -> & _).
    split; [apply length_imap|].
    intros i p Hp. eexists. split; [apply rows_lookup; by exists p|].
    cbn. rewrite quantity_at_lookup. split; [done|]. split; [|split].
    + intros Hlen. by rewrite lookup_ge_None_2.
    + by intros ->.
    + by intros q ->.
  - intros Hq.
    destruct (known_retailer_paragraphs retailers_data selected_retailer Hret)
      as (sp & tm & em & H0 & H1 & H2).
    eexists _, _. by eapply build_submission_data_ok.
Qed.

Lemma missing_quantity_recorded_as_zero_witness :
  known_retailer [corner_shop] (Some "Corner Shop") = true
  /\ latitude_longitude None = Ok ("0", "0")
  /\ quantities_fit [Some 3%Z] = true
  /\ (forall submission_data w',
        build_submission_data snacks_products (Some "Corner Shop") (Some "Snacks")
          (Some (update_salesperson_info [corner_shop] (Some "Corner Shop")))
          [Some 3%Z] None counting_world
        = (Ok submission_data, w') ->
        length submission_data
        = length (filtered_products snacks_products (Some "Snacks"))
        /\ forall i p,
             filtered_products snacks_products (Some "Snacks") !! i = Some p ->
             exists rec,
               submission_data !! i = Some rec
               /\ Product rec = Product_name p
               /\ (length [Some 3%Z] <= i -> Quantity rec = 0%Z)
               /\ ([Some 3%Z] !! i = Some None -> Quantity rec = 0%Z)
               /\ (forall q,
                     [Some 3%Z] !! i = Some (Some q) -> Quantity rec = q))
  /\ (quantities_fit [Some 3%Z] = true ->
      exists submission_data w',
        build_submission_data snacks_products (Some "Corner Shop") (Some "Snacks")
          (Some (update_salesperson_info [corner_shop] (Some "Corner Shop")))
          [Some 3%Z] None counting_world
        = (Ok submission_data, w')).
Proof.
  split; [reflexivity|]. split; [reflexivity|]. split; [reflexivity|].
  apply (missing_quantity_recorded_as_zero [corner_shop] snacks_products
           (Some "Corner Shop") (Some "Snacks") [Some 3%Z] None "0" "0"
           counting_world); reflexivity.
Defined.

(** * Further properties of the callbacks *)

(** ** Splitting a text *)

Lemma append_String (c : ascii) (a b : string) :
  String c a ++ b = String c (a ++ b).
Proof. reflexivity. Qed.

Lemma append_empty_r (a : string) : a ++ EmptyString = a.
Proof. induction a as [|c a IH]; [done|]. by rewrite append_String, IH. Qed.

Lemma append_assoc (a b c : string) : (a ++ b) ++ c = a ++ (b ++ c).
Proof. induction a as [|x a IH]; [done|]. by rewrite !append_String, IH. Qed.

Lemma prefix_append (sep s : string) :
  String.prefix sep s = true -> exists rest, s = sep ++ rest.
Proof.
  revert s. induction sep as [|c sep IH]; intros s H.
  - by exists s.
  - destruct s as [|a s]; [done|]. cbn in H.
    destruct (ascii_dec c a) as [->|]; [|done].
    destruct (IH s H) as [rest ->]. by exists rest.
Qed.

Lemma prefix_append_r (sep s t : string) :
  String.prefix sep s = true -> String.prefix sep (s ++ t) = true.
Proof.
  revert s. induction sep as [|c sep IH]; intros s H.
  - apply prefix_empty.
  - destruct s as [|a s]; [done|]. cbn in H. rewrite append_String. cbn.
    destruct (ascii_dec c a); [by apply IH|done].
Qed.

Lemma split_go_skip (sep p cur rest : string) :
  split_go sep (String.length p) cur (p ++ rest) = split_go sep 0 cur rest.
Proof. induction p as [|c p IH]; [done|]. by rewrite append_String. Qed.

(** The first piece runs up to the leftmost occurrence of the separator,
    and the other pieces are those of what follows it. *)
Lemma split_go_first (sep cur s piece : string) (pieces : list string) :
  sep <> EmptyString ->
  split_go sep 0 cur s = piece :: pieces ->
  exists t,
    piece = cur ++ t
    /\ occurs sep t = false
    /\ ((pieces = [] /\ s = t)
        \/ exists s2, s = t ++ sep ++ s2
                      /\ pieces = split_go sep 0 EmptyString s2).
Proof.
  intros Hsep. revert cur. induction s as [|c s IH]; intros cur H.
  - injection H as <- <-. exists EmptyString.
    split; [by rewrite append_empty_r|]. split; [|by left].
    destruct sep; [done|reflexivity].
  - cbn [split_go] in H.
    destruct (String.prefix sep (String c s)) eqn:Hp.
    + injection H as <- <-. exists EmptyString.
      split; [by rewrite append_empty_r|].
      split; [destruct sep; [done|reflexivity]|]. right.
      destruct (prefix_append _ _ Hp) as [s2 Hs2].
      destruct sep as [|c0 sep]; [done|].
      rewrite append_String in Hs2. injection Hs2 as -> ->.
      exists s2. split; [done|]. cbn [String.length Nat.sub].
      rewrite Nat.sub_0_r. apply split_go_skip.
    + destruct (IH _ H) as (t & -> & Ht & Hrest).
      exists (String c t). split; [by rewrite append_assoc|].
      assert (Hs : exists u, s = t ++ u).
      { destruct Hrest as [[_ ->]|(s2 & -> & _)].
        - exists EmptyString. by rewrite append_empty_r.
        - by exists (sep ++ s2). }
      split.
      * cbn [occurs]. rewrite Ht, orb_false_r.
        destruct (String.prefix sep (String c t)) eqn:Hpt; [|done].
        destruct Hs as [u ->].
        apply (prefix_append_r _ _ u) in Hpt.
        rewrite append_String in Hpt. congruence.
      * destruct Hrest as [[-> ->]|(s2 & -> & ->)]; [by left|].
        right. by exists s2.
Qed.

(** [sep.join(s.split(sep)) == s] *)
Lemma concat_split_go (sep : string) (n : nat) (cur s : string) :
  sep <> EmptyString ->
  String.length s <= n ->
  String.concat sep (split_go sep 0 cur s) = cur ++ s.
Proof.
  intros Hsep. revert cur s. induction n as [|n IH]; intros cur s Hn.
  - destruct s; [|cbn in Hn; lia].
    cbn [split_go String.concat]. by rewrite append_empty_r.
  - destruct (split_go_cons sep 0 cur s) as (piece & pieces & H).
    rewrite H.
    destruct (split_go_first _ _ _ _ _ Hsep H)
      as (t & -> & _ & [[-> ->]|(s2 & -> & ->)]); [done|].
    destruct (split_go_cons sep 0 EmptyString s2) as (p2 & ps2 & H2).
    rewrite H2.
    change (String.concat sep ((cur ++ t) :: p2 :: ps2))
      with ((cur ++ t) ++ sep ++ String.concat sep (p2 :: ps2)).
    rewrite <- H2, IH.
    + by rewrite !append_assoc.
    + destruct sep as [|c0 sep]; [done|].
      assert (Hlen : forall a b, String.length (a ++ b)
                                 = String.length a + String.length b).
      { intros a b. induction a as [|x a IHa]; [done|].
        rewrite append_String. cbn. by rewrite IHa. }
      rewrite !Hlen in Hn. cbn in Hn. lia.
Qed.

Lemma split_go_no_occurrence (sep cur s : string) :
  sep <> EmptyString ->
  occurs sep s = false ->
  split_go sep 0 cur s = [cur ++ s].
Proof.
  intros Hsep. revert cur. induction s as [|c s IH]; intros cur H.
  - by rewrite append_empty_r.
  - cbn [occurs] in H. apply orb_false_elim in H as [Hp Ho].
    cbn [split_go]. rewrite Hp, IH by done. by rewrite append_assoc.
Qed.

Lemma prefix_refl (sep : string) : String.prefix sep sep = true.
Proof.
  induction sep as [|c sep IH]; [done|]. cbn.
  by destruct (ascii_dec c c).
Qed.

Lemma occurs_prefix (sep s : string) :
  String.prefix sep s = true -> occurs sep s = true.
Proof. intros H. destruct s; cbn [occurs]; by rewrite H. Qed.

Lemma occurs_append (sep a b : string) : occurs sep (a ++ sep ++ b) = true.
Proof.
  induction a as [|c a IH].
  - change (occurs sep (sep ++ b) = true).
    apply occurs_prefix, prefix_append_r, prefix_refl.
  - rewrite append_String. cbn [occurs]. by rewrite IH, orb_true_r.
Qed.

(** ** The messages *)

Lemma msg_success_not_incomplete (r c : option string) :
  msg_success r c <> msg_incomplete.
Proof. unfold msg_success, msg_incomplete. cbv [append]. discriminate. Qed.

Lemma msg_success_not_error (r c : option string) :
  msg_success r c <> msg_error.
Proof. unfold msg_success, msg_error. cbv [append]. discriminate. Qed.

Lemma msg_error_not_incomplete : msg_error <> msg_incomplete.
Proof. discriminate. Qed.

(** X1.  [submit_data] lets no exception escape.  It always returns one of
    its three messages; the confirmation dialog is shown exactly with the
    success message, and the "complete all fields" message is returned
    exactly when the click counter, the retailer or the category is
    missing. *)
Theorem submit_data_never_raises (products_data : list product)
    (n_clicks : option nat) (selected_retailer selected_category : option string)
    (salesperson_info : option children) (input_values : list (option Z))
    (geolocation : option string) (w : World) :
  exists msg displayed w',
    submit_data products_data n_clicks selected_retailer selected_category
      salesperson_info input_values geolocation w
    = (Ok (msg, displayed), w')
    /\ (msg = msg_incomplete \/ msg = msg_error
        \/ msg = msg_success selected_retailer selected_category)
    /\ (displayed = true <->
        msg = msg_success selected_retailer selected_category)
    /\ (msg = msg_incomplete <->
        truthy_nat n_clicks = false \/ truthy_str selected_retailer = false
        \/ truthy_str selected_category = false).
Proof.
  assert (Hguard :
    negb (truthy_nat n_clicks) || negb (truthy_str selected_retailer)
      || negb (truthy_str selected_category) = true
    <-> truthy_nat n_clicks = false \/ truthy_str selected_retailer = false
        \/ truthy_str selected_category = false).
  { destruct (truthy_nat n_clicks), (truthy_str selected_retailer),
      (truthy_str selected_category); cbn; intuition discriminate. }
  pose proof (msg_success_not_incomplete selected_retailer selected_category).
  pose proof (msg_success_not_error selected_retailer selected_category).
  pose proof msg_error_not_incomplete.
  destruct (submit_data_outcomes products_data n_clicks selected_retailer
              selected_category salesperson_info input_values geolocation w)
    as [[Hg ->]|[(Hg & -> & _)|[(Hg & k & p & _ & _ & _ & ->)
       |(Hg & sp & tm & em & la & lo & _ & _ & _ & _ & _
         & [[_ ->]|[(_ & k & _ & _ & _ & ->)|[_ ->]]])]]];
    eexists _, _, _; (split; [reflexivity|]);
    rewrite <- Hguard, Hg; intuition congruence.
Qed.

(** X2.  Whatever happens, [submit_data] only adds rows at the end of the
    worksheet: the rows that were there stay as they were, and the rows
    added are the records of the first products of the category, in
    catalog order, each with the selected retailer and category, the
    entered quantity and, as amount, what [price * quantity] returned for
    them.  At most one call is made to the Sheets API per product, plus
    one. *)
Theorem submit_data_only_appends (products_data : list product)
    (n_clicks : option nat) (selected_retailer selected_category : option string)
    (salesperson_info : option children) (input_values : list (option Z))
    (geolocation : option string) (w : World) :
  let w' :=
    (submit_data products_data n_clicks selected_retailer selected_category
       salesperson_info input_values geolocation w).2 in
  exists added,
    Submissions w' = (Submissions w ++ added)%list
    /\ length added <= length (filtered_products products_data selected_category)
    /\ (forall i rec,
          added !! i = Some rec ->
          exists p,
            filtered_products products_data selected_category !! i = Some p
            /\ Product rec = Product_name p
            /\ Retailer rec = py_str selected_retailer
            /\ Category rec = py_str selected_category
            /\ Quantity rec = quantity_at input_values i
            /\ py_mul (price_of p) (Int (Quantity rec)) = Ok (Amount rec)
            /\ (forall z,
                  price_of p = Int z -> Amount rec = Int (z * Quantity rec))
            /\ (forall f,
                  price_of p = Float f ->
                  Amount rec
                  = Float (float_mul f (float_of_Z (Quantity rec)))))
    /\ gspread_calls w <= gspread_calls w'
    /\ gspread_calls w'
       <= S (length (filtered_products products_data selected_category))
          + gspread_calls w.
Proof.
  cbv zeta.
  destruct (submit_data_outcomes products_data n_clicks selected_retailer
              selected_category salesperson_info input_values geolocation w)
    as [[Hg ->]|[(Hg & -> & _)|[(Hg & k & p & _ & _ & _ & ->)
       |(Hg & sp & tm & em & la & lo & _ & _ & _ & _ & Hfit
         & [[_ ->]|[(_ & k & Hk & _ & _ & ->)|[_ ->]]])]]];
    cbn [snd Submissions gspread_calls sent tick].
  - exists []. rewrite app_nil_r. repeat split; [cbn; lia|done|lia|lia].
  - exists []. rewrite app_nil_r. repeat split; [cbn; lia|done|lia|lia].
  - exists []. rewrite app_nil_r. repeat split; [cbn; lia|done|lia|lia].
  - exists []. repeat split; [cbn; lia|done|lia|lia].
  - eexists. split; [reflexivity|].
    split; [rewrite length_take, length_imap; lia|].
    split; [|lia].
    intros i rec Hi. apply lookup_take_Some in Hi as [Hi _].
    apply rows_lookup in Hi as (p & Hp & ->). exists p.
    do 5 (split; [done|]). cbn. rewrite py_mul_run.
    specialize (Hfit i p Hp). unfold row_fits in Hfit. rewrite Hfit.
    split; [done|]. split; [by intros z ->|by intros f ->].
  - eexists. split; [reflexivity|]. split; [by rewrite length_imap|].
    split; [|lia].
    intros i rec (p & Hp & ->)%rows_lookup. exists p.
    do 5 (split; [done|]). cbn. rewrite py_mul_run.
    specialize (Hfit i p Hp). unfold row_fits in Hfit. rewrite Hfit.
    split; [done|]. split; [by intros z ->|by intros f ->].
Qed.

(** The run of a submission that meets no obstacle. *)
Lemma submit_data_success_run (products_data : list product)
    (n_clicks : option nat) (selected_retailer selected_category : option string)
    (salesperson_info : option children) (input_values : list (option Z))
    (geolocation : option string) (sp tm em la lo : string) (w : World) :
  truthy_nat n_clicks = true ->
  truthy_str selected_retailer = true ->
  truthy_str selected_category = true ->
  paragraph_value salesperson_info 0 = Ok sp ->
  paragraph_value salesperson_info 1 = Ok tm ->
  paragraph_value salesperson_info 2 = Ok em ->
  latitude_longitude geolocation = Ok (la, lo) ->
  (forall k p,
     filtered_products products_data selected_category !! k = Some p ->
     row_fits input_values k p = true) ->
  (forall k,
     k <= length (filtered_products products_data selected_category) ->
     gspread_raises w (k + gspread_calls w) = false) ->
  submit_data products_data n_clicks selected_retailer selected_category
    salesperson_info input_values geolocation w
  = (Ok (msg_success selected_retailer selected_category, true),
     sent (S (length (filtered_products products_data selected_category)))
       (imap (record_at w selected_retailer selected_category sp tm em
                input_values la lo)
          (filtered_products products_data selected_category))
       (tick (length (filtered_products products_data selected_category)) w)).
Proof.
  intros Hn Hr Hc H0 H1 H2 Hgeo Hfit Hapi.
  destruct (submit_data_outcomes products_data n_clicks selected_retailer
              selected_category salesperson_info input_values geolocation w)
    as [[Hg _]|[(_ & _ & e & He)|[(_ & k & p & Hk & Hmis & _ & _)
       |(_ & sp' & tm' & em' & la' & lo' & H0' & H1' & H2' & Hgeo' & _
         & [[Hf _]|[(_ & k & Hk & Hf & _)|[_ Hrun]]])]]].
  - by rewrite Hn, Hr, Hc in Hg.
  - destruct He as [He|[He|[He|He]]]; congruence.
  - rewrite (Hfit k p Hk) in Hmis. discriminate.
  - specialize (Hapi 0 ltac:(lia)). cbn in Hapi. congruence.
  - rewrite (Hapi (S k)) in Hf by lia. discriminate.
  - rewrite Hrun. congruence.
Qed.

(** X3.  With a click, a known retailer, a category, an absent or well
    formed geolocation, entered quantities within the range of a float and
    a Sheets API that answers the next calls, the submission succeeds: the worksheet gains one row per product of the
    category, in catalog order, the success message names the category and
    the retailer, and the dialog is shown.  It costs one API call per row
    plus one, one identifier and one reading of the clock per row. *)
Theorem submit_data_succeeds (retailers_data : list retailer)
    (products_data : list product) (n_clicks : option nat)
    (selected_retailer selected_category : option string)
    (input_values : list (option Z)) (geolocation : option string)
    (latitude longitude : string) (w : World) :
  truthy_nat n_clicks = true ->
  known_retailer retailers_data selected_retailer = true ->
  truthy_str selected_category = true ->
  latitude_longitude geolocation = Ok (latitude, longitude) ->
  quantities_fit input_values = true ->
  (forall k,
     k <= length (filtered_products products_data selected_category) ->
     gspread_raises w (k + gspread_calls w) = false) ->
  exists rows w',
    submit_data products_data n_clicks selected_retailer selected_category
      (Some (update_salesperson_info retailers_data selected_retailer))
      input_values geolocation w
    = (Ok (msg_success selected_retailer selected_category, true), w')
    /\ Submissions w' = (Submissions w ++ rows)%list
    /\ map Product rows
       = map Product_name (filtered_products products_data selected_category)
    /\ gspread_calls w' = S (length rows) + gspread_calls w
    /\ uuid4_calls w' = length rows + uuid4_calls w
    /\ now_calls w' = length rows + now_calls w.
Proof.
  intros Hn Hret Hc Hgeo Hq Hapi.
  pose proof Hret as Hr. apply andb_true_iff in Hr as [Hr _].
  destruct (known_retailer_paragraphs retailers_data selected_retailer Hret)
    as (sp & tm & em & H0 & H1 & H2).
  eexists _, _.
  split.
  { apply (submit_data_success_run _ _ _ _ _ _ _ sp tm em latitude longitude);
      try done.
    intros k p _. by apply row_fits_in_range. }
  cbn [Submissions gspread_calls uuid4_calls now_calls sent tick].
  split; [reflexivity|]. rewrite length_imap.
  split; [apply rows_Product|]. done.
Qed.

Lemma submit_data_succeeds_witness :
  truthy_nat (Some 1) = true
  /\ known_retailer [corner_shop] (Some "Corner Shop") = true
  /\ truthy_str (Some "Snacks") = true
  /\ latitude_longitude (Some "12.97,77.59") = Ok ("12.97", "77.59")
  /\ quantities_fit [Some 3%Z; Some 0%Z] = true
  /\ (forall k,
        k <= length (filtered_products snacks_products (Some "Snacks")) ->
        gspread_raises counting_world (k + gspread_calls counting_world) = false)
  /\ exists rows w',
       submit_data snacks_products (Some 1) (Some "Corner Shop") (Some "Snacks")
         (Some (update_salesperson_info [corner_shop] (Some "Corner Shop")))
         [Some 3%Z; Some 0%Z] (Some "12.97,77.59") counting_world
       = (Ok (msg_success (Some "Corner Shop") (Some "Snacks"), true), w')
       /\ Submissions w' = (Submissions counting_world ++ rows)%list
       /\ map Product rows
          = map Product_name (filtered_products snacks_products (Some "Snacks"))
       /\ gspread_calls w' = S (length rows) + gspread_calls counting_world
       /\ uuid4_calls w' = length rows + uuid4_calls counting_world
       /\ now_calls w' = length rows + now_calls counting_world.
Proof.
  assert (Hapi : forall k,
            k <= length (filtered_products snacks_products (Some "Snacks")) ->
            gspread_raises counting_world (k + gspread_calls counting_world)
            = false)
    by (intros k _; reflexivity).
  split; [reflexivity|]. split; [reflexivity|]. split; [reflexivity|].
  split; [reflexivity|]. split; [reflexivity|]. split; [exact Hapi|].
  apply (submit_data_succeeds [corner_shop] snacks_products (Some 1)
           (Some "Corner Shop") (Some "Snacks") [Some 3%Z; Some 0%Z]
           (Some "12.97,77.59") "12.97" "77.59" counting_world);
    [reflexivity|reflexivity|reflexivity|reflexivity|reflexivity|exact Hapi].
Defined.

(** X4.  When the lookup of the "Submissions" worksheet fails, the
    submission answers with the error message, no row is added and no
    append is tried: that lookup is the only call made.  The records were
    built before it (the entered quantities being within the range of a
    float), so their identifiers are spent. *)
Theorem worksheet_failure_sends_nothing (retailers_data : list retailer)
    (products_data : list product) (n_clicks : option nat)
    (selected_retailer selected_category : option string)
    (input_values : list (option Z)) (geolocation : option string)
    (latitude longitude : string) (w : World) :
  truthy_nat n_clicks = true ->
  known_retailer retailers_data selected_retailer = true ->
  truthy_str selected_category = true ->
  latitude_longitude geolocation = Ok (latitude, longitude) ->
  quantities_fit input_values = true ->
  gspread_raises w (gspread_calls w) = true ->
  exists w',
    submit_data products_data n_clicks selected_retailer selected_category
      (Some (update_salesperson_info retailers_data selected_retailer))
      input_values geolocation w
    = (Ok (msg_error, false), w')
    /\ Submissions w' = Submissions w
    /\ gspread_calls w' = S (gspread_calls w)
    /\ uuid4_calls w'
       = length (filtered_products products_data selected_category)
         + uuid4_calls w.
Proof.
  intros Hn Hret Hc Hgeo Hq Hws.
  pose proof Hret as Hr. apply andb_true_iff in Hr as [Hr _].
  destruct (known_retailer_paragraphs retailers_data selected_retailer Hret)
    as (sp & tm & em & H0 & H1 & H2).
  destruct (submit_data_outcomes products_data n_clicks selected_retailer
              selected_category
              (Some (update_salesperson_info retailers_data selected_retailer))
              input_values geolocation w)
    as [[Hg _]|[(_ & _ & e & He)|[(_ & k & p & Hk & Hmis & _ & _)
       |(_ & sp' & tm' & em' & la & lo & _ & _ & _ & _ & _
         & [[_ Hrun]|[(Hf & _)|[Hf _]]])]]].
  - by rewrite Hn, Hr, Hc in Hg.
  - destruct He as [He|[He|[He|He]]]; congruence.
  - by rewrite row_fits_in_range in Hmis.
  - eexists. split; [exact Hrun|].
    cbn [Submissions gspread_calls uuid4_calls sent tick].
    by rewrite app_nil_r.
  - congruence.
  - specialize (Hf 0 ltac:(lia)). cbn in Hf. congruence.
Qed.

Lemma worksheet_failure_sends_nothing_witness :
  truthy_nat (Some 1) = true
  /\ known_retailer [corner_shop] (Some "Corner Shop") = true
  /\ truthy_str (Some "Snacks") = true
  /\ latitude_longitude None = Ok ("0", "0")
  /\ quantities_fit [Some 3%Z; Some 0%Z] = true
  /\ gspread_raises offline_world (gspread_calls offline_world) = true
  /\ exists w',
       submit_data snacks_products (Some 1) (Some "Corner Shop") (Some "Snacks")
         (Some (update_salesperson_info [corner_shop] (Some "Corner Shop")))
         [Some 3%Z; Some 0%Z] None offline_world
       = (Ok (msg_error, false), w')
       /\ Submissions w' = Submissions offline_world
       /\ gspread_calls w' = S (gspread_calls offline_world)
       /\ uuid4_calls w'
          = length (filtered_products snacks_products (Some "Snacks"))
            + uuid4_calls offline_world.
Proof.
  split; [reflexivity|]. split; [reflexivity|]. split; [reflexivity|].
  split; [reflexivity|]. split; [reflexivity|]. split; [reflexivity|].
  apply (worksheet_failure_sends_nothing [corner_shop] snacks_products (Some 1)
           (Some "Corner Shop") (Some "Snacks") [Some 3%Z; Some 0%Z] None
           "0" "0" offline_world); reflexivity.
Defined.

(** ** The geolocation text *)

Lemma split_char_length (c : ascii) (cur s : string) :
  length (split_go (String c EmptyString) 0 cur s) = S (count_char c s).
Proof.
  revert cur. induction s as [|a s IH]; intros cur; [done|].
  cbn [split_go count_char String.prefix String.length Nat.sub].
  destruct (ascii_dec c a) as [->|Hne].
  - rewrite prefix_empty, Ascii.eqb_refl. cbn [length]. by rewrite IH.
  - rewrite IH. destruct (Ascii.eqb_spec a c); [congruence|done].
Qed.

Lemma split_char_at (c : ascii) (cur t s2 : string) :
  occurs (String c EmptyString) t = false ->
  split_go (String c EmptyString) 0 cur (t ++ String c EmptyString ++ s2)
  = (cur ++ t) :: split_go (String c EmptyString) 0 EmptyString s2.
Proof.
  revert cur. induction t as [|a t IH]; intros cur Ht.
  - change (EmptyString ++ String c EmptyString ++ s2) with (String c s2).
    cbn [split_go String.prefix String.length Nat.sub].
    destruct (ascii_dec c c); [|done].
    by rewrite prefix_empty, append_empty_r.
  - cbn [occurs] in Ht. apply orb_false_elim in Ht as [Hp Ho].
    rewrite append_String. cbn [split_go String.prefix] in *.
    destruct (ascii_dec c a); [by rewrite prefix_empty in Hp|].
    rewrite IH by done. by rewrite append_assoc.
Qed.

Lemma latitude_longitude_raises (geolocation : option string) :
  truthy_str geolocation = true ->
  count_char "," (py_str geolocation) <> 1 ->
  latitude_longitude geolocation = Raise ValueError.
Proof.
  intros Ht Hc. unfold latitude_longitude. rewrite Ht.
  pose proof (split_char_length "," EmptyString (py_str geolocation)) as Hlen.
  unfold str_split.
  destruct (split_go "," 0 EmptyString (py_str geolocation))
    as [|a [|b [|? ?]]]; try done.
  cbn in Hlen. lia.
Qed.

(** X5.  A geolocation text that is not empty and does not hold exactly
    one comma stops the submission: an error message is returned, the
    dialog is not shown, and the world is as before (no identifier drawn,
    no call to the Sheets API, no row added). *)
Theorem malformed_geolocation_sends_nothing (products_data : list product)
    (n_clicks : option nat) (selected_retailer selected_category : option string)
    (salesperson_info : option children) (input_values : list (option Z))
    (geolocation : option string) (w : World) :
  truthy_str geolocation = true ->
  count_char "," (py_str geolocation) <> 1 ->
  exists msg,
    submit_data products_data n_clicks selected_retailer selected_category
      salesperson_info input_values geolocation w
    = (Ok (msg, false), w)
    /\ (msg = msg_incomplete \/ msg = msg_error).
Proof.
  intros Ht Hc.
  pose proof (latitude_longitude_raises geolocation Ht Hc) as Hgeo.
  destruct (negb (truthy_nat n_clicks) || negb (truthy_str selected_retailer)
            || negb (truthy_str selected_category)) eqn:Hg.
  { exists msg_incomplete. split; [by apply submit_data_incomplete|by left]. }
  destruct (build_submission_data_unread products_data selected_retailer
              selected_category input_values salesperson_info geolocation
              ValueError w) as [e Hb]; [tauto|].
  exists msg_error. split; [|by right].
  by apply (submit_data_build_raises _ _ _ _ _ _ _ e).
Qed.

Lemma malformed_geolocation_sends_nothing_witness :
  truthy_str (Some "12.97;77.59") = true
  /\ count_char "," (py_str (Some "12.97;77.59")) <> 1
  /\ exists msg,
       submit_data snacks_products (Some 1) (Some "Corner Shop") (Some "Snacks")
         (Some (update_salesperson_info [corner_shop] (Some "Corner Shop")))
         [Some 3%Z; Some 0%Z] (Some "12.97;77.59") counting_world
       = (Ok (msg, false), counting_world)
       /\ (msg = msg_incomplete \/ msg = msg_error).
Proof.
  assert (Hc : count_char "," (py_str (Some "12.97;77.59")) <> 1)
    by (vm_compute; discriminate).
  split; [reflexivity|]. split; [exact Hc|].
  exact (malformed_geolocation_sends_nothing snacks_products (Some 1)
           (Some "Corner Shop") (Some "Snacks")
           (Some (update_salesperson_info [corner_shop] (Some "Corner Shop")))
           [Some 3%Z; Some 0%Z] (Some "12.97;77.59") counting_world
           eq_refl Hc).
Defined.

(** X6.  A geolocation text "a,b" whose two parts hold no comma is read
    back as latitude a and longitude b. *)
Theorem latitude_longitude_round_trip (a b : string) :
  occurs "," a = false ->
  occurs "," b = false ->
  latitude_longitude (Some (a ++ "," ++ b)) = Ok (a, b).
Proof.
  intros Ha Hb. unfold latitude_longitude.
  assert (Ht : truthy_str (Some (a ++ "," ++ b)) = true).
  { destruct a; reflexivity. }
  rewrite Ht. cbn [py_str]. unfold str_split.
  rewrite (split_char_at "," EmptyString a b Ha).
  rewrite split_go_no_occurrence by done. reflexivity.
Qed.

Lemma latitude_longitude_round_trip_witness :
  occurs "," "12.97" = false
  /\ occurs "," "77.59" = false
  /\ latitude_longitude (Some ("12.97" ++ "," ++ "77.59")) = Ok ("12.97", "77.59").
Proof.
  split; [reflexivity|]. split; [reflexivity|].
  apply (latitude_longitude_round_trip "12.97" "77.59"); reflexivity.
Defined.

(** ** The salesperson block, rendered and read back *)

Lemma rendered_salesperson_pieces (x : string) :
  str_split ": " ("👤 Salesperson: " ++ x)
  = "👤 Salesperson" :: split_go ": " 0 EmptyString x.
Proof.
  unfold str_split. cbv [append]. cbn. rewrite prefix_empty. reflexivity.
Qed.

Lemma rendered_team_pieces (x : string) :
  str_split ": " ("📢 Team: " ++ x) = "📢 Team" :: split_go ": " 0 EmptyString x.
Proof.
  unfold str_split. cbv [append]. cbn. rewrite prefix_empty. reflexivity.
Qed.

Lemma rendered_email_pieces (x : string) :
  str_split ": " ("📧 Email: " ++ x) = "📧 Email" :: split_go ": " 0 EmptyString x.
Proof.
  unfold str_split. cbv [append]. cbn. rewrite prefix_empty. reflexivity.
Qed.

(** The piece read back from a rendered paragraph is the value up to its
    first ": ". *)
Lemma read_back_cut (text label x : string) :
  str_split ": " text = label :: split_go ": " 0 EmptyString x ->
  exists v,
    py_index (str_split ": " text) 1 = Ok v
    /\ occurs ": " v = false
    /\ (x = v \/ exists rest, x = v ++ ": " ++ rest).
Proof.
  intros ->.
  destruct (split_go_cons ": " 0 EmptyString x) as (v & vs & Hv).
  rewrite Hv. exists v. split; [done|].
  destruct (split_go_first ": " EmptyString x v vs ltac:(done) Hv)
    as (t & -> & Ht & Hrest).
  change (EmptyString ++ t) with t. split; [done|].
  destruct Hrest as [[_ ->]|(s2 & -> & _)]; [by left|right; by exists s2].
Qed.

Lemma read_back_whole (v x : string) :
  occurs ": " x = false ->
  occurs ": " v = false /\ (x = v \/ exists rest, x = v ++ ": " ++ rest) ->
  v = x.
Proof.
  intros Hx [_ [->|[rest ->]]]; [done|].
  by rewrite occurs_append in Hx.
Qed.

Lemma paragraph_value_Paragraphs (ps : list string) (i : nat) :
  paragraph_value (Some (Paragraphs ps)) i
  = match ps !! i with
    | Some text => py_index (str_split ": " text) 1
    | None => Raise IndexError
    end.
Proof. unfold paragraph_value, py_index. by destruct (ps !! i). Qed.

Section ReadBack.

Variable retailers_data : list retailer.
Variable selected_retailer : option string.
Variable r : retailer.
Hypothesis Hsel : truthy_str selected_retailer = true.
Hypothesis Hfind :
  find (fun r => str_eq (Retailer_Name r) selected_retailer) retailers_data
  = Some r.

Lemma paragraphs_read_back :
  exists sp tm em,
    let info := Some (update_salesperson_info retailers_data selected_retailer) in
    paragraph_value info 0 = Ok sp
    /\ paragraph_value info 1 = Ok tm
    /\ paragraph_value info 2 = Ok em
    /\ (occurs ": " sp = false
        /\ (Retailer_Salesperson r = sp
            \/ exists rest, Retailer_Salesperson r = sp ++ ": " ++ rest))
    /\ (occurs ": " tm = false
        /\ (Retailer_Team r = tm
            \/ exists rest, Retailer_Team r = tm ++ ": " ++ rest))
    /\ (occurs ": " em = false
        /\ (Retailer_Email r = em
            \/ exists rest, Retailer_Email r = em ++ ": " ++ rest)).
Proof.
  unfold update_salesperson_info. rewrite Hsel, Hfind. cbn [negb].
  rewrite !paragraph_value_Paragraphs. cbn [lookup list_lookup].
  destruct (read_back_cut _ _ _ (rendered_salesperson_pieces (Retailer_Salesperson r)))
    as (sp & Hsp & Hcs).
  destruct (read_back_cut _ _ _ (rendered_team_pieces (Retailer_Team r)))
    as (tm & Htm & Hct).
  destruct (read_back_cut _ _ _ (rendered_email_pieces (Retailer_Email r)))
    as (em & Hem & Hce).
  exists sp, tm, em. cbn zeta. rewrite Hsp, Htm, Hem. done.
Qed.

End ReadBack.

(** X7.  Round trip of the salesperson block.  When the name, the team and
    the email of the selected retailer hold no ": ", every record of the
    build (for entered quantities within the range of a float) carries
    exactly the three values of the "Retailers" sheet. *)
Theorem salesperson_round_trip (retailers_data : list retailer)
    (products_data : list product)
    (selected_retailer selected_category : option string) (r : retailer)
    (input_values : list (option Z)) (geolocation : option string)
    (latitude longitude : string) (w : World) :
  truthy_str selected_retailer = true ->
  find (fun r => str_eq (Retailer_Name r) selected_retailer) retailers_data
  = Some r ->
  occurs ": " (Retailer_Salesperson r) = false ->
  occurs ": " (Retailer_Team r) = false ->
  occurs ": " (Retailer_Email r) = false ->
  latitude_longitude geolocation = Ok (latitude, longitude) ->
  quantities_fit input_values = true ->
  exists submission_data w',
    build_submission_data products_data selected_retailer selected_category
      (Some (update_salesperson_info retailers_data selected_retailer))
      input_values geolocation w
    = (Ok submission_data, w')
    /\ length submission_data
       = length (filtered_products products_data selected_category)
    /\ forall rec,
         rec ∈ submission_data ->
         Salesperson rec = Retailer_Salesperson r
         /\ Team rec = Retailer_Team r
         /\ Email rec = Retailer_Email r.
Proof.
  intros Hsel Hfind Hs Ht He Hgeo Hq.
  destruct (paragraphs_read_back retailers_data selected_retailer r Hsel Hfind)
    as (sp & tm & em & H0 & H1 & H2 & Hcs & Hct & Hce).
  apply (read_back_whole _ _ Hs) in Hcs as ->.
  apply (read_back_whole _ _ Ht) in Hct as ->.
  apply (read_back_whole _ _ He) in Hce as ->.
  eexists _, _. split; [by eapply build_submission_data_ok|].
  split; [apply length_imap|].
  by intros rec (i & p & _ & ->)%rows_elem_of.
Qed.

Lemma salesperson_round_trip_witness :
  truthy_str (Some "Corner Shop") = true
  /\ find (fun r => str_eq (Retailer_Name r) (Some "Corner Shop")) [corner_shop]
     = Some corner_shop
  /\ occurs ": " (Retailer_Salesperson corner_shop) = false
  /\ occurs ": " (Retailer_Team corner_shop) = false
  /\ occurs ": " (Retailer_Email corner_shop) = false
  /\ latitude_longitude None = Ok ("0", "0")
  /\ quantities_fit [Some 3%Z; Some 0%Z] = true
  /\ exists submission_data w',
       build_submission_data snacks_products (Some "Corner Shop") (Some "Snacks")
         (Some (update_salesperson_info [corner_shop] (Some "Corner Shop")))
         [Some 3%Z; Some 0%Z] None counting_world
       = (Ok submission_data, w')
       /\ length submission_data
          = length (filtered_products snacks_products (Some "Snacks"))
       /\ forall rec,
            rec ∈ submission_data ->
            Salesperson rec = Retailer_Salesperson corner_shop
            /\ Team rec = Retailer_Team corner_shop
            /\ Email rec = Retailer_Email corner_shop.
Proof.
  do 7 (split; [reflexivity|]).
  apply (salesperson_round_trip [corner_shop] snacks_products
           (Some "Corner Shop") (Some "Snacks") corner_shop
           [Some 3%Z; Some 0%Z] None "0" "0" counting_world); reflexivity.
Defined.

(** X8.  A value of the salesperson block that holds ": " is not read back
    whole: every record of the build (for entered quantities within the
    range of a float) carries, for the name, the team and the email, the
    text of the "Retailers" sheet up to its first ": ". *)
Theorem salesperson_cut_at_separator (retailers_data : list retailer)
    (products_data : list product)
    (selected_retailer selected_category : option string) (r : retailer)
    (input_values : list (option Z)) (geolocation : option string)
    (latitude longitude : string) (w : World) :
  truthy_str selected_retailer = true ->
  find (fun r => str_eq (Retailer_Name r) selected_retailer) retailers_data
  = Some r ->
  latitude_longitude geolocation = Ok (latitude, longitude) ->
  quantities_fit input_values = true ->
  exists sp tm em submission_data w',
    build_submission_data products_data selected_retailer selected_category
      (Some (update_salesperson_info retailers_data selected_retailer))
      input_values geolocation w
    = (Ok submission_data, w')
    /\ (forall rec,
          rec ∈ submission_data ->
          Salesperson rec = sp /\ Team rec = tm /\ Email rec = em)
    /\ (occurs ": " sp = false
        /\ (Retailer_Salesperson r = sp
            \/ exists rest, Retailer_Salesperson r = sp ++ ": " ++ rest))
    /\ (occurs ": " tm = false
        /\ (Retailer_Team r = tm
            \/ exists rest, Retailer_Team r = tm ++ ": " ++ rest))
    /\ (occurs ": " em = false
        /\ (Retailer_Email r = em
            \/ exists rest, Retailer_Email r = em ++ ": " ++ rest)).
Proof.
  intros Hsel Hfind Hgeo Hq.
  destruct (paragraphs_read_back retailers_data selected_retailer r Hsel Hfind)
    as (sp & tm & em & H0 & H1 & H2 & Hcs & Hct & Hce).
  exists sp, tm, em. eexists _, _.
  split; [by eapply build_submission_data_ok|].
  split; [|done].
  by intros rec (i & p & _ & ->)%rows_elem_of.
Qed.

Lemma salesperson_cut_at_separator_witness :
  truthy_str (Some "Corner Shop") = true
  /\ find (fun r => str_eq (Retailer_Name r) (Some "Corner Shop")) [titled_shop]
     = Some titled_shop
  /\ latitude_longitude None = Ok ("0", "0")
  /\ quantities_fit [Some 3%Z; Some 0%Z] = true
  /\ exists sp tm em submission_data w',
       build_submission_data snacks_products (Some "Corner Shop") (Some "Snacks")
         (Some (update_salesperson_info [titled_shop] (Some "Corner Shop")))
         [Some 3%Z; Some 0%Z] None counting_world
       = (Ok submission_data, w')
       /\ (forall rec,
             rec ∈ submission_data ->
             Salesperson rec = sp /\ Team rec = tm /\ Email rec = em)
       /\ (occurs ": " sp = false
           /\ (Retailer_Salesperson titled_shop = sp
               \/ exists rest, Retailer_Salesperson titled_shop = sp ++ ": " ++ rest))
       /\ (occurs ": " tm = false
           /\ (Retailer_Team titled_shop = tm
               \/ exists rest, Retailer_Team titled_shop = tm ++ ": " ++ rest))
       /\ (occurs ": " em = false
           /\ (Retailer_Email titled_shop = em
               \/ exists rest, Retailer_Email titled_shop = em ++ ": " ++ rest)).
Proof.
  do 4 (split; [reflexivity|]).
  apply (salesperson_cut_at_separator [titled_shop] snacks_products
           (Some "Corner Shop") (Some "Snacks") titled_shop
           [Some 3%Z; Some 0%Z] None "0" "0" counting_world); reflexivity.
Defined.

(** ** The dropdown and the page *)

(** X9.  Every entry of the retailer dropdown with a non-empty name is a
    known retailer: selecting it never shows "Retailer not found.", and
    the block shows the first row of the "Retailers" sheet that carries
    the name. *)
Theorem retailer_option_is_known (retailers_data : list retailer)
    (o : dropdown_option) :
  o ∈ retailers_options retailers_data ->
  value o <> EmptyString ->
  label o = value o
  /\ known_retailer retailers_data (Some (value o)) = true
  /\ exists before r after,
       retailers_data = (before ++ r :: after)%list
       /\ Retailer_Name r = value o
       /\ (forall r', r' ∈ before -> Retailer_Name r' <> value o)
       /\ update_salesperson_info retailers_data (Some (value o))
          = Paragraphs
              [ "👤 Salesperson: " ++ Retailer_Salesperson r;
                "📢 Team: " ++ Retailer_Team r;
                "📧 Email: " ++ Retailer_Email r ].
Proof.
  unfold retailers_options. intros Ho Hv.
  change (map ?f ?l) with (f <$> l) in Ho.
  apply list_elem_of_fmap in Ho as (r0 & -> & Hr0). cbn in *.
  split; [done|].
  assert (Ht : truthy_str (Some (Retailer_Name r0)) = true).
  { cbn. destruct (String.eqb_spec (Retailer_Name r0) EmptyString); done. }
  assert (Hfind : exists before r after,
            retailers_data = (before ++ r :: after)%list
            /\ Retailer_Name r = Retailer_Name r0
            /\ (forall r', r' ∈ before -> Retailer_Name r' <> Retailer_Name r0)
            /\ find (fun r => str_eq (Retailer_Name r) (Some (Retailer_Name r0)))
                 retailers_data = Some r).
  { clear Ht Hv. induction retailers_data as [|a l IH].
    - by apply elem_of_nil in Hr0.
    - cbn [find str_eq].
      destruct (String.eqb_spec (Retailer_Name a) (Retailer_Name r0)) as [He|Hne].
      + exists [], a, l. repeat split; [done|]. intros r' Hr'.
        by apply elem_of_nil in Hr'.
      + apply elem_of_cons in Hr0 as [->|Hr0]; [done|].
        destruct (IH Hr0) as (before & r & after & -> & Hn & Hb & Hf).
        exists (a :: before), r, after. repeat split; [done| |done].
        intros r' [->|Hr']%elem_of_cons; [done|by apply Hb]. }
  destruct Hfind as (before & r & after & Hl & Hn & Hb & Hf).
  split.
  - unfold known_retailer. rewrite Ht, Hf. done.
  - exists before, r, after. repeat split; try done.
    unfold update_salesperson_info. by rewrite Ht, Hf.
Qed.

Lemma retailer_option_is_known_witness :
  {| label := "Corner Shop"; value := "Corner Shop" |}
    ∈ retailers_options [corner_shop; titled_shop]
  /\ value {| label := "Corner Shop"; value := "Corner Shop" |} <> EmptyString
  /\ label {| label := "Corner Shop"; value := "Corner Shop" |}
     = value {| label := "Corner Shop"; value := "Corner Shop" |}
  /\ known_retailer [corner_shop; titled_shop]
       (Some (value {| label := "Corner Shop"; value := "Corner Shop" |})) = true
  /\ exists before r after,
       [corner_shop; titled_shop] = (before ++ r :: after)%list
       /\ Retailer_Name r = value {| label := "Corner Shop"; value := "Corner Shop" |}
       /\ (forall r',
             r' ∈ before ->
             Retailer_Name r'
             <> value {| label := "Corner Shop"; value := "Corner Shop" |})
       /\ update_salesperson_info [corner_shop; titled_shop]
            (Some (value {| label := "Corner Shop"; value := "Corner Shop" |}))
          = Paragraphs
              [ "👤 Salesperson: " ++ Retailer_Salesperson r;
                "📢 Team: " ++ Retailer_Team r;
                "📧 Email: " ++ Retailer_Email r ].
Proof.
  assert (Hin : {| label := "Corner Shop"; value := "Corner Shop" |}
                  ∈ retailers_options [corner_shop; titled_shop])
    by (apply list_elem_of_In; cbn; auto).
  assert (Hv : value {| label := "Corner Shop"; value := "Corner Shop" |}
               <> EmptyString) by discriminate.
  split; [exact Hin|]. split; [exact Hv|].
  exact (retailer_option_is_known [corner_shop; titled_shop] _ Hin Hv).
Defined.

(** X10.  The page and the records line up.  For a selected category the
    page shows one quantity input per product, and the record at position
    [i] of a build (for entered quantities within the range of a float) is
    for the product that labels the [i]-th input and carries the value
    entered there (0 when it is absent). *)
Theorem records_match_page_inputs (retailers_data : list retailer)
    (products_data : list product)
    (selected_retailer selected_category : option string)
    (input_values : list (option Z)) (geolocation : option string)
    (latitude longitude : string) (w : World) :
  known_retailer retailers_data selected_retailer = true ->
  truthy_str selected_category = true ->
  latitude_longitude geolocation = Ok (latitude, longitude) ->
  quantities_fit input_values = true ->
  exists submission_data w',
    build_submission_data products_data selected_retailer selected_category
      (Some (update_salesperson_info retailers_data selected_retailer))
      input_values geolocation w
    = (Ok submission_data, w')
    /\ map Product submission_data
       = map index (input_ids (update_product_inputs products_data selected_category))
    /\ forall i rec,
         submission_data !! i = Some rec ->
         Quantity rec = default 0%Z (default None (input_values !! i)).
Proof.
  intros Hret Hc Hgeo Hq.
  destruct (known_retailer_paragraphs retailers_data selected_retailer Hret)
    as (sp & tm & em & H0 & H1 & H2).
  eexists _, _. split; [by eapply build_submission_data_ok|]. split.
  - rewrite rows_Product, update_product_inputs_ids by done.
    by rewrite map_map.
  - intros i rec (p & _ & ->)%rows_lookup. cbn.
    rewrite quantity_at_lookup. by destruct (input_values !! i) as [[q|]|].
Qed.

Lemma records_match_page_inputs_witness :
  known_retailer [corner_shop] (Some "Corner Shop") = true
  /\ truthy_str (Some "Snacks") = true
  /\ latitude_longitude None = Ok ("0", "0")
  /\ quantities_fit [None; Some 4%Z] = true
  /\ exists submission_data w',
       build_submission_data snacks_products (Some "Corner Shop") (Some "Snacks")
         (Some (update_salesperson_info [corner_shop] (Some "Corner Shop")))
         [None; Some 4%Z] None counting_world
       = (Ok submission_data, w')
       /\ map Product submission_data
          = map index
              (input_ids (update_product_inputs snacks_products (Some "Snacks")))
       /\ forall i rec,
            submission_data !! i = Some rec ->
            Quantity rec = default 0%Z (default None ([None; Some 4%Z] !! i)).
Proof.
  do 4 (split; [reflexivity|]).
  apply (records_match_page_inputs [corner_shop] snacks_products
           (Some "Corner Shop") (Some "Snacks") [None; Some 4%Z] None "0" "0"
           counting_world); reflexivity.
Defined.

(** X11.  A category without products can be submitted: no quantity input
    is on the page, the submission reports success and shows the dialog,
    and nothing is added to the worksheet; the lookup of the worksheet is
    the only call made. *)
Theorem empty_category_submits_nothing (retailers_data : list retailer)
    (products_data : list product) (n_clicks : option nat)
    (selected_retailer selected_category : option string)
    (input_values : list (option Z)) (geolocation : option string)
    (latitude longitude : string) (w : World) :
  truthy_nat n_clicks = true ->
  known_retailer retailers_data selected_retailer = true ->
  truthy_str selected_category = true ->
  latitude_longitude geolocation = Ok (latitude, longitude) ->
  filtered_products products_data selected_category = [] ->
  gspread_raises w (gspread_calls w) = false ->
  input_ids (update_product_inputs products_data selected_category) = []
  /\ exists w',
       submit_data products_data n_clicks selected_retailer selected_category
         (Some (update_salesperson_info retailers_data selected_retailer))
         input_values geolocation w
       = (Ok (msg_success selected_retailer selected_category, true), w')
       /\ Submissions w' = Submissions w
       /\ gspread_calls w' = S (gspread_calls w)
       /\ uuid4_calls w' = uuid4_calls w.
Proof.
  intros Hn Hret Hc Hgeo Hempty Hws.
  pose proof Hret as Hr. apply andb_true_iff in Hr as [Hr _].
  destruct (known_retailer_paragraphs retailers_data selected_retailer Hret)
    as (sp & tm & em & H0 & H1 & H2).
  split.
  { rewrite update_product_inputs_ids by done. by rewrite Hempty. }
  eexists. split.
  - apply (submit_data_success_run _ _ _ _ _ _ _ sp tm em latitude longitude);
      try done.
    + rewrite Hempty. intros k p Hk. done.
    + rewrite Hempty. intros k Hk. cbn in Hk. by replace k with 0 by lia.
  - rewrite Hempty. cbn. by rewrite app_nil_r.
Qed.

Lemma empty_category_submits_nothing_witness :
  truthy_nat (Some 1) = true
  /\ known_retailer [corner_shop] (Some "Corner Shop") = true
  /\ truthy_str (Some "Toys") = true
  /\ latitude_longitude None = Ok ("0", "0")
  /\ filtered_products snacks_products (Some "Toys") = []
  /\ gspread_raises counting_world (gspread_calls counting_world) = false
  /\ input_ids (update_product_inputs snacks_products (Some "Toys")) = []
  /\ exists w',
       submit_data snacks_products (Some 1) (Some "Corner Shop") (Some "Toys")
         (Some (update_salesperson_info [corner_shop] (Some "Corner Shop")))
         [] None counting_world
       = (Ok (msg_success (Some "Corner Shop") (Some "Toys"), true), w')
       /\ Submissions w' = Submissions counting_world
       /\ gspread_calls w' = S (gspread_calls counting_world)
       /\ uuid4_calls w' = uuid4_calls counting_world.
Proof.
  do 6 (split; [reflexivity|]).
  apply (empty_category_submits_nothing [corner_shop] snacks_products (Some 1)
           (Some "Corner Shop") (Some "Toys") [] None "0" "0" counting_world);
    reflexivity.
Defined.

(** X12.  Nothing keeps a draft from being submitted twice.  Two
    submissions in a row of the same draft (entered quantities within the
    range of a float) both succeed and the worksheet gains the rows twice: the second batch repeats the products,
    quantities and amounts of the first, with identifiers drawn later. *)
Theorem resubmission_duplicates_rows (retailers_data : list retailer)
    (products_data : list product) (n_clicks : option nat)
    (selected_retailer selected_category : option string)
    (input_values : list (option Z)) (geolocation : option string)
    (latitude longitude : string) (w : World) :
  truthy_nat n_clicks = true ->
  known_retailer retailers_data selected_retailer = true ->
  truthy_str selected_category = true ->
  latitude_longitude geolocation = Ok (latitude, longitude) ->
  quantities_fit input_values = true ->
  (forall k,
     k <= S (2 * length (filtered_products products_data selected_category)) ->
     gspread_raises w (k + gspread_calls w) = false) ->
  let submit :=
    submit_data products_data n_clicks selected_retailer selected_category
      (Some (update_salesperson_info retailers_data selected_retailer))
      input_values geolocation in
  exists first second w1 w2,
    submit w = (Ok (msg_success selected_retailer selected_category, true), w1)
    /\ submit w1 = (Ok (msg_success selected_retailer selected_category, true), w2)
    /\ Submissions w2 = (Submissions w ++ first ++ second)%list
    /\ length first = length (filtered_products products_data selected_category)
    /\ length second = length first
    /\ forall i rec1 rec2,
         first !! i = Some rec1 ->
         second !! i = Some rec2 ->
         Product rec2 = Product rec1
         /\ Quantity rec2 = Quantity rec1
         /\ Amount rec2 = Amount rec1
         /\ Retailer rec2 = Retailer rec1
         /\ Category rec2 = Category rec1
         /\ Unique_ID rec1 = uuid4_src w (i + uuid4_calls w)
         /\ Unique_ID rec2 = uuid4_src w (i + length first + uuid4_calls w).
Proof.
  intros Hn Hret Hc Hgeo Hq Hapi. cbv zeta.
  assert (Hfit : forall k p,
            filtered_products products_data selected_category !! k = Some p ->
            row_fits input_values k p = true)
    by (intros k p _; by apply row_fits_in_range).
  pose proof Hret as Hr. apply andb_true_iff in Hr as [Hr _].
  destruct (known_retailer_paragraphs retailers_data selected_retailer Hret)
    as (sp & tm & em & H0 & H1 & H2).
  set (n := length (filtered_products products_data selected_category)) in *.
  eexists _, _, _, _. split; [|split].
  - apply (submit_data_success_run _ _ _ _ _ _ _ sp tm em latitude longitude);
      try done.
    intros k Hk. apply Hapi. fold n in Hk. lia.
  - apply (submit_data_success_run _ _ _ _ _ _ _ sp tm em latitude longitude);
      try done.
    intros k Hk. fold n in Hk. cbn [gspread_raises gspread_calls sent tick].
    rewrite Nat.add_assoc. apply Hapi. lia.
  - cbn [Submissions sent tick]. fold n.
    split; [by rewrite app_assoc|]. rewrite !length_imap.
    split; [done|]. split; [done|].
    intros i rec1 rec2 (p1 & Hp1 & ->)%rows_lookup (p2 & Hp2 & ->)%rows_lookup.
    rewrite Hp1 in Hp2. injection Hp2 as <-.
    cbn. repeat split; try done. fold n. f_equal. lia.
Qed.

Lemma resubmission_duplicates_rows_witness :
  let submit :=
    submit_data snacks_products (Some 1) (Some "Corner Shop") (Some "Snacks")
      (Some (update_salesperson_info [corner_shop] (Some "Corner Shop")))
      [Some 3%Z; Some 0%Z] None in
  truthy_nat (Some 1) = true
  /\ known_retailer [corner_shop] (Some "Corner Shop") = true
  /\ truthy_str (Some "Snacks") = true
  /\ latitude_longitude None = Ok ("0", "0")
  /\ quantities_fit [Some 3%Z; Some 0%Z] = true
  /\ (forall k,
        k <= S (2 * length (filtered_products snacks_products (Some "Snacks"))) ->
        gspread_raises counting_world (k + gspread_calls counting_world) = false)
  /\ exists first second w1 w2,
       submit counting_world
       = (Ok (msg_success (Some "Corner Shop") (Some "Snacks"), true), w1)
       /\ submit w1
          = (Ok (msg_success (Some "Corner Shop") (Some "Snacks"), true), w2)
       /\ Submissions w2 = (Submissions counting_world ++ first ++ second)%list
       /\ length first
          = length (filtered_products snacks_products (Some "Snacks"))
       /\ length second = length first
       /\ forall i rec1 rec2,
            first !! i = Some rec1 ->
            second !! i = Some rec2 ->
            Product rec2 = Product rec1
            /\ Quantity rec2 = Quantity rec1
            /\ Amount rec2 = Amount rec1
            /\ Retailer rec2 = Retailer rec1
            /\ Category rec2 = Category rec1
            /\ Unique_ID rec1
               = uuid4_src counting_world (i + uuid4_calls counting_world)
            /\ Unique_ID rec2
               = uuid4_src counting_world
                   (i + length first + uuid4_calls counting_world).
Proof.
  cbv zeta.
  assert (Hapi : forall k,
            k <= S (2 * length (filtered_products snacks_products (Some "Snacks"))) ->
            gspread_raises counting_world (k + gspread_calls counting_world)
            = false)
    by (intros k _; reflexivity).
  do 5 (split; [reflexivity|]). split; [exact Hapi|].
  apply (resubmission_duplicates_rows [corner_shop] snacks_products (Some 1)
           (Some "Corner Shop") (Some "Snacks") [Some 3%Z; Some 0%Z] None
           "0" "0" counting_world);
    [reflexivity|reflexivity|reflexivity|reflexivity|reflexivity|exact Hapi].
Defined.

(** ** More on the recomputation *)

(** X13.  [update_total_amount] raises in two ways only.  It raises an
    [OverflowError] exactly when one of the lines it is given (a quantity
    that comes with an id) names a product whose price is beyond the range
    of a float, or names a product and has such a quantity.  Otherwise it
    raises an [IndexError] exactly when it is given more quantities than
    ids.  Otherwise it returns one line per quantity, or, for no quantity
    at all, one line per id. *)
Theorem update_total_amount_errors (products_data : list product)
    (quantities : list (option Z)) (ids : list component_id) :
  (Exists (fun l => line_fits products_data (index l.1) l.2 = false)
     (zip ids quantities)
   /\ update_total_amount products_data quantities ids = Raise OverflowError)
  \/ (Forall (fun l => line_fits products_data (index l.1) l.2 = true)
        (zip ids quantities)
      /\ length ids < length quantities
      /\ update_total_amount products_data quantities ids = Raise IndexError)
  \/ (Forall (fun l => line_fits products_data (index l.1) l.2 = true)
        (zip ids quantities)
      /\ length quantities <= length ids
      /\ exists total_values total,
           update_total_amount products_data quantities ids
           = Ok (total_values, total)
           /\ length total_values
              = match quantities with
                | [] => length ids
                | _ => length quantities
                end).
Proof.
  destruct (decide (Forall (fun l : component_id * option Z =>
                              line_fits products_data (index l.1) l.2 = true)
                      (zip ids quantities))) as [Hfit|Hmis].
  - right.
    destruct (Nat.lt_ge_cases (length ids) (length quantities)) as [Hlt|Hge].
    + left. do 2 (split; [done|]). unfold update_total_amount.
      destruct quantities as [|q qs] eqn:E; [cbn in Hlt; lia|].
      rewrite update_total_amount_loop_IndexError;
        [done|done|lia|exact Hlt|by rewrite drop_0].
    + right. do 2 (split; [done|]). destruct quantities as [|q qs] eqn:E.
      * eexists _, _. split; [reflexivity|]. by rewrite repeat_length.
      * eexists _, _. split; [by apply update_total_amount_fits|].
        rewrite length_map, length_zip_with. cbn in *. lia.
  - left. apply not_Forall_Exists in Hmis; [|apply _].
    assert (Hex : Exists (fun l : component_id * option Z =>
                            line_fits products_data (index l.1) l.2 = false)
                    (zip ids quantities)).
    { eapply Exists_impl; [exact Hmis|]. intros l Hl. cbn in Hl.
      by apply not_true_is_false. }
    split; [done|]. unfold update_total_amount.
    destruct quantities as [|q qs] eqn:E.
    { rewrite zip_with_nil_r in Hex. by apply Exists_nil in Hex. }
    rewrite update_total_amount_loop_OverflowError; [done|done|].
    by rewrite drop_0.
Qed.

Lemma update_total_amount_line (products_data : list product)
    (quantities : list (option Z)) (ids : list component_id) (i : nat)
    (id : component_id) (q : option Z) :
  length quantities = length ids ->
  prices_fit products_data = true ->
  quantities_fit quantities = true ->
  ids !! i = Some id ->
  quantities !! i = Some q ->
  exists total_values total,
    update_total_amount products_data quantities ids = Ok (total_values, total)
    /\ total_values !! i
       = Some (rupees_float
                 (to_float (amount_value products_data (index id) q))).
Proof.
  intros Hlen Hp Hfit Hid Hq. eexists _, _. split.
  - apply update_total_amount_fits; [|lia|by apply lines_fit_in_range].
    intros ->. done.
  - change (map ?f ?l) with (f <$> l).
    rewrite list_lookup_fmap, lookup_zip_with, Hid, Hq. reflexivity.
Qed.

(** X14.  A line whose id names no product of the catalog is priced 0: it
    shows "₹0.00" whatever the quantity entered (prices and quantities
    being within the range of a float). *)
Theorem unknown_product_line_is_zero (products_data : list product)
    (quantities : list (option Z)) (ids : list component_id) (i : nat)
    (id : component_id) (q : option Z) :
  length quantities = length ids ->
  prices_fit products_data = true ->
  quantities_fit quantities = true ->
  ids !! i = Some id ->
  quantities !! i = Some q ->
  product_info_of products_data (index id) = None ->
  exists total_values total,
    update_total_amount products_data quantities ids = Ok (total_values, total)
    /\ total_values !! i = Some "₹0.00".
Proof.
  intros Hlen Hp Hfit Hid Hq Hnone.
  destruct (update_total_amount_line products_data quantities ids i id q
              Hlen Hp Hfit Hid Hq) as (tv & total & Hrun & Hline).
  exists tv, total. split; [done|]. rewrite Hline.
  unfold amount_value. rewrite Hnone. reflexivity.
Qed.

Lemma unknown_product_line_is_zero_witness :
  length [Some 2%Z; Some 7%Z] = length [input_id "Chips"; input_id "Tea"]
  /\ prices_fit snacks_products = true
  /\ quantities_fit [Some 2%Z; Some 7%Z] = true
  /\ [input_id "Chips"; input_id "Tea"] !! 1 = Some (input_id "Tea")
  /\ [Some 2%Z; Some 7%Z] !! 1 = Some (Some 7%Z)
  /\ product_info_of snacks_products (index (input_id "Tea")) = None
  /\ exists total_values total,
       update_total_amount snacks_products [Some 2%Z; Some 7%Z]
         [input_id "Chips"; input_id "Tea"]
       = Ok (total_values, total)
       /\ total_values !! 1 = Some "₹0.00".
Proof.
  do 6 (split; [reflexivity|]).
  apply (unknown_product_line_is_zero snacks_products [Some 2%Z; Some 7%Z]
           [input_id "Chips"; input_id "Tea"] 1 (input_id "Tea") (Some 7%Z));
    reflexivity.
Defined.

Lemma product_info_of_first (before after : list product) (p : product) :
  (forall p', p' ∈ before -> Product_name p' <> Product_name p) ->
  product_info_of (before ++ p :: after) (Product_name p) = Some p.
Proof.
  unfold product_info_of. induction before as [|a l IH]; intros Hb.
  - cbn. by rewrite String.eqb_refl.
  - cbn [app find].
    destruct (String.eqb_spec (Product_name a) (Product_name p)) as [He|_].
    + destruct (Hb a); [by left|done].
    + apply IH. intros p' Hp'. apply Hb. by right.
Qed.

(** X15.  A line is priced by the first row of the "Products" sheet that
    carries the name of its id, whatever the category of that row and
    whatever rows of the same name follow it: it shows the binary64
    product float(Price) × Quantity of that row's price, rendered with two
    decimals (prices and quantities being within the range of a float). *)
Theorem line_priced_by_first_row (before after : list product) (p : product)
    (quantities : list (option Z)) (ids : list component_id) (i : nat)
    (id : component_id) (q : option Z) :
  (forall p', p' ∈ before -> Product_name p' <> Product_name p) ->
  length quantities = length ids ->
  prices_fit (before ++ p :: after) = true ->
  quantities_fit quantities = true ->
  ids !! i = Some id ->
  index id = Product_name p ->
  quantities !! i = Some q ->
  exists total_values total,
    update_total_amount (before ++ p :: after) quantities ids
    = Ok (total_values, total)
    /\ total_values !! i
       = Some (rupees_float (line_product p (default 0%Z q))).
Proof.
  intros Hb Hlen Hp Hfit Hid Hname Hq.
  destruct (update_total_amount_line (before ++ p :: after) quantities ids i
              id q Hlen Hp Hfit Hid Hq) as (tv & total & Hrun & Hline).
  exists tv, total. split; [done|]. rewrite Hline.
  unfold amount_value. by rewrite Hname, product_info_of_first.
Qed.

Lemma line_priced_by_first_row_witness :
  (forall p', p' ∈ [chips] -> Product_name p' <> Product_name clove)
  /\ length [Some 5%Z] = length [input_id "Clove"]
  /\ prices_fit ([chips] ++ clove :: [cola]) = true
  /\ quantities_fit [Some 5%Z] = true
  /\ [input_id "Clove"] !! 0 = Some (input_id "Clove")
  /\ index (input_id "Clove") = Product_name clove
  /\ [Some 5%Z] !! 0 = Some (Some 5%Z)
  /\ exists total_values total,
       update_total_amount ([chips] ++ clove :: [cola]) [Some 5%Z]
         [input_id "Clove"]
       = Ok (total_values, total)
       /\ total_values !! 0
          = Some (rupees_float (line_product clove (default 0%Z (Some 5%Z)))).
Proof.
  assert (Hb : forall p', p' ∈ [chips] -> Product_name p' <> Product_name clove).
  { intros p' Hp'. apply list_elem_of_In in Hp'. cbn in Hp'.
    destruct Hp' as [<-|[]]. discriminate. }
  split; [exact Hb|]. do 6 (split; [reflexivity|]).
  apply (line_priced_by_first_row [chips] [cola] clove [Some 5%Z]
           [input_id "Clove"] 0 (input_id "Clove") (Some 5%Z));
    [exact Hb|reflexivity..].
Defined.

(** A price whose float is finite with the sign bit clear, times the
    quantity 0, is the positive zero. *)
Lemma nonnegative_price_zero (price : number) :
  nonnegative_price price = true ->
  number_fits price = true
  /\ float_mul (to_float price) (float_of_Z 0) = S754_zero false.
Proof.
  unfold nonnegative_price. rewrite py_float_run.
  destruct (number_fits price); [|done].
  by destruct (to_float price) as [[]|[]| |[] m e].
Qed.

Lemma plus_zero_foldl (total : number) (amounts : list number) :
  total = Int 0 \/ total = Float (S754_zero false) ->
  Forall (fun a => a = Int 0 \/ a = Float (S754_zero false)) amounts ->
  rupees_float (to_float (foldl number_add total amounts)) = "₹0.00".
Proof.
  intros Ht Ha. revert total Ht.
  induction Ha as [|a l Ha _ IH]; intros total Ht.
  - by destruct Ht as [->| ->].
  - cbn [foldl]. apply IH.
    destruct Ht as [->| ->], Ha as [->| ->]; auto.
Qed.

(** X16.  With one quantity per input and every quantity absent or 0, as
    on a page that was just rendered, every line shows "₹0.00" and the
    total is "Total Value: ₹0.00".  Prices are taken non-negative: their
    float is finite and has its sign bit clear.  A negative price times 0
    is the negative zero, which is rendered "-0.00". *)
Theorem blank_draft_shows_zero (products_data : list product)
    (quantities : list (option Z)) (ids : list component_id) :
  Forall (fun p => nonnegative_price (price_of p) = true) products_data ->
  length quantities = length ids ->
  Forall (fun q => default 0%Z q = 0%Z) quantities ->
  update_total_amount products_data quantities ids
  = Ok (repeat "₹0.00" (length ids), "Total Value: ₹0.00").
Proof.
  intros Hprices Hlen Hzero.
  destruct quantities as [|q0 qs] eqn:E; [reflexivity|]. rewrite <- E in *.
  assert (Hfound : forall product_id p,
            product_info_of products_data product_id = Some p ->
            nonnegative_price (price_of p) = true).
  { intros product_id p Hp%product_info_of_elem_of.
    rewrite Forall_forall in Hprices. by apply Hprices. }
  assert (Hline : Forall (fun l : component_id * option Z =>
                    line_fits products_data (index l.1) l.2 = true
                    /\ (amount_value products_data (index l.1) l.2 = Int 0
                        \/ amount_value products_data (index l.1) l.2
                           = Float (S754_zero false)))
                    (zip ids quantities)).
  { apply Forall_forall. intros [id q] Hin.
    apply elem_of_zip_r in Hin.
    rewrite Forall_forall in Hzero. specialize (Hzero q Hin).
    unfold line_fits, amount_value. cbn [fst snd]. rewrite Hzero.
    destruct (product_info_of products_data (index id)) as [p|] eqn:Hp;
      [|auto].
    destruct (nonnegative_price_zero _ (Hfound _ _ Hp)) as [-> ->]. auto. }
  rewrite update_total_amount_fits;
    [|subst; done|lia|by eapply Forall_impl; [exact Hline|]; intros l [? _]].
  f_equal. f_equal.
  - rewrite <- Hlen, <- (length_zip_with_r_eq pair ids quantities) by lia.
    clear -Hline. induction Hline as [|l ls [_ Hl] _ IH]; [done|].
    cbn [map length repeat]. rewrite IH. f_equal.
    by destruct Hl as [->| ->].
  - rewrite plus_zero_foldl; [done|by left|].
    apply Forall_forall. intros a (l & -> & Hl)%list_elem_of_fmap.
    rewrite Forall_forall in Hline. by apply Hline.
Qed.

Lemma blank_draft_shows_zero_witness :
  Forall (fun p => nonnegative_price (price_of p) = true) snacks_products
  /\ length [None; Some 0%Z] = length [input_id "Chips"; input_id "Cola"]
  /\ Forall (fun q => default 0%Z q = 0%Z) [None; Some 0%Z]
  /\ update_total_amount snacks_products [None; Some 0%Z]
       [input_id "Chips"; input_id "Cola"]
     = Ok (repeat "₹0.00" (length [input_id "Chips"; input_id "Cola"]),
           "Total Value: ₹0.00").
Proof.
  assert (Hp : Forall (fun p => nonnegative_price (price_of p) = true)
                 snacks_products)
    by (repeat constructor).
  assert (Hz : Forall (fun q => default 0%Z q = 0%Z) [None; Some 0%Z])
    by (repeat constructor).
  split; [exact Hp|]. split; [reflexivity|]. split; [exact Hz|].
  exact (blank_draft_shows_zero snacks_products [None; Some 0%Z]
           [input_id "Chips"; input_id "Cola"] Hp eq_refl Hz).
Defined.

(** X20.  An absent quantity is the quantity 0: whatever the other
    quantities and the ids, a line left blank gives the same result, lines
    and total or exception, as the same line set to 0. *)
Theorem absent_quantity_is_zero (products_data : list product)
    (quantities : list (option Z)) (ids : list component_id) (line : nat) :
  update_total_amount products_data (set_quantity line None quantities) ids
  = update_total_amount products_data (set_quantity line (Some 0%Z) quantities)
      ids.
Proof.
  apply update_total_amount_default. unfold set_quantity.
  by rewrite !list_fmap_insert.
Qed.

(** ** Worked values *)

(** 0.013 × 5 is the float 0.06500000000000000222, shown as 0.07. *)
Example line_is_rounded_in_binary64 :
  update_total_amount [clove] [Some 5%Z] [input_id "Clove"]
  = Ok (["₹0.07"], "Total Value: ₹0.07").
Proof. vm_compute. reflexivity. Qed.

(** 0.0 × -3 is the negative zero; added to the total 0 it gives 0.0. *)
Example line_is_negative_zero :
  update_total_amount [sample] [Some (-3)%Z] [input_id "Sample"]
  = Ok (["₹-0.00"], "Total Value: ₹0.00").
Proof. vm_compute. reflexivity. Qed.

(** 0.1 × 3 is recorded as the float 0.30000000000000004. *)
Example recorded_amount_is_binary64 :
  py_mul (Float (float_ratio 1 10)) (Int 3)
  = Ok (Float (S754_finite false 5404319552844596 (-54)))
  /\ format_2f_float (S754_finite false 5404319552844596 (-54)) = "0.30".
Proof. vm_compute. split; reflexivity. Qed.

(** 20.0 × 10^400: the quantity does not convert to a float. *)
Example line_overflows :
  update_total_amount [chips] [Some (10 ^ 400)%Z] [input_id "Chips"]
  = Raise OverflowError.
Proof. vm_compute. reflexivity. Qed.

(** ** What a build depends on *)

Lemma for_enumerate_ext {A B : Type} (f g : nat -> A -> M B) (idx : nat)
    (l : list A) (w : World) :
  (forall k x, l !! k = Some x -> f (idx + k) x = g (idx + k) x) ->
  for_enumerate f idx l w = for_enumerate g idx l w.
Proof.
  revert idx w. induction l as [|x l IH]; intros idx w H; [done|].
  cbn [for_enumerate]. rewrite !bind_run.
  specialize (H 0 x eq_refl) as H0. rewrite Nat.add_0_r in H0. rewrite H0.
  destruct (g idx x w) as [[y|e] w1]; [|done].
  rewrite !bind_run, IH; [done|].
  intros k x' Hk. replace (S idx + k) with (idx + S k) by lia. by apply H.
Qed.

Section Pairing.

Variable products_data : list product.
Variable n_clicks : option nat.
Variables selected_retailer selected_category : option string.
Variable salesperson_info : option children.
Variable geolocation : option string.

Lemma build_submission_data_quantities (input_values input_values' : list (option Z))
    (w : World) :
  (forall i,
     i < length (filtered_products products_data selected_category) ->
     quantity_at input_values i = quantity_at input_values' i) ->
  build_submission_data products_data selected_retailer selected_category
    salesperson_info input_values geolocation w
  = build_submission_data products_data selected_retailer selected_category
      salesperson_info input_values' geolocation w.
Proof.
  intros Hq. unfold build_submission_data. rewrite !bind_run. unfold lift.
  destruct (paragraph_value salesperson_info 0) as [sp|]; [|done].
  rewrite !bind_run.
  destruct (paragraph_value salesperson_info 1) as [tm|]; [|done].
  rewrite !bind_run.
  destruct (paragraph_value salesperson_info 2) as [em|]; [|done].
  rewrite !bind_run.
  destruct (latitude_longitude geolocation) as [[la lo]|]; [|done].
  apply for_enumerate_ext. intros k p Hp. apply lookup_lt_Some in Hp.
  unfold submission_row. cbn [Nat.add]. by rewrite (Hq k Hp).
Qed.

Lemma submit_data_quantities (input_values input_values' : list (option Z))
    (w : World) :
  (forall i,
     i < length (filtered_products products_data selected_category) ->
     quantity_at input_values i = quantity_at input_values' i) ->
  submit_data products_data n_clicks selected_retailer selected_category
    salesperson_info input_values geolocation w
  = submit_data products_data n_clicks selected_retailer selected_category
      salesperson_info input_values' geolocation w.
Proof.
  intros Hq. unfold submit_data.
  destruct (negb (truthy_nat n_clicks) || negb (truthy_str selected_retailer)
            || negb (truthy_str selected_category)); [done|].
  unfold try_except. rewrite !bind_run.
  by rewrite (build_submission_data_quantities input_values input_values' w Hq).
Qed.

End Pairing.

(** X17.  Only the first entered values count, one per product of the
    category: values entered beyond the last product are ignored, and a
    list that stops early behaves as if it went on with absent values. *)
Theorem surplus_values_are_ignored (products_data : list product)
    (n_clicks : option nat) (selected_retailer selected_category : option string)
    (salesperson_info : option children) (input_values : list (option Z))
    (geolocation : option string) (m : nat) (w : World) :
  submit_data products_data n_clicks selected_retailer selected_category
    salesperson_info input_values geolocation w
  = submit_data products_data n_clicks selected_retailer selected_category
      salesperson_info
      (take (length (filtered_products products_data selected_category))
         input_values)
      geolocation w
  /\ submit_data products_data n_clicks selected_retailer selected_category
       salesperson_info input_values geolocation w
     = submit_data products_data n_clicks selected_retailer selected_category
         salesperson_info (input_values ++ replicate m None)%list geolocation w.
Proof.
  split; apply submit_data_quantities; intros i Hi;
    rewrite !quantity_at_lookup.
  - by rewrite lookup_take_lt.
  - destruct (input_values !! i) as [q|] eqn:Hq.
    + by rewrite (lookup_app_l_Some _ _ _ _ Hq).
    + apply lookup_ge_None in Hq. rewrite lookup_app_r by done.
      destruct (replicate m None !! (i - length input_values)) as [q|] eqn:Hr;
        [|done].
      apply lookup_replicate in Hr as [-> _]. done.
Qed.

(** X18.  All the records of one build carry the selected retailer and
    category, one salesperson, team and email and one pair of coordinates;
    and the product of each record is a product of the catalog whose
    category is the selected one. *)
Theorem batch_shares_selection (products_data : list product)
    (selected_retailer selected_category : option string)
    (salesperson_info : option children) (input_values : list (option Z))
    (geolocation : option string) (submission_data : list SubmissionRecord)
    (w w' : World) :
  build_submission_data products_data selected_retailer selected_category
    salesperson_info input_values geolocation w
  = (Ok submission_data, w') ->
  exists sp tm em la lo,
    forall rec,
      rec ∈ submission_data ->
      Retailer rec = py_str selected_retailer
      /\ Category rec = py_str selected_category
      /\ Salesperson rec = sp /\ Team rec = tm /\ Email rec = em
      /\ Latitude rec = la /\ Longitude rec = lo
      /\ exists p,
           p ∈ products_data
           /\ Product rec = Product_name p
           /\ selected_category = Some (Product_Category p)
           /\ Category rec = Product_Category p.
Proof.
  intros Hb.
  apply build_submission_data_inv in Hb
    as (sp & tm & em & la & lo & _ & _ & _ & _ & _ & -> & _).
  exists sp, tm, em, la, lo.
  intros rec (i & p & Hp & ->)%rows_elem_of. cbn.
  do 7 (split; [done|]).
  apply list_elem_of_lookup_2, list_elem_of_In, filter_In in Hp as [Hin Hcat].
  exists p. split; [by apply list_elem_of_In|]. split; [done|].
  destruct selected_category as [c|]; [|done]. cbn in Hcat.
  apply String.eqb_eq in Hcat as ->. done.
Qed.

Lemma batch_shares_selection_witness :
  let submission_data :=
    imap (record_at counting_world (Some "Corner Shop") (Some "Snacks")
            "Asha" "North" "asha@example.org" [Some 3%Z; Some 0%Z] "0" "0")
      [chips; cola] in
  build_submission_data snacks_products (Some "Corner Shop") (Some "Snacks")
    (Some (update_salesperson_info [corner_shop] (Some "Corner Shop")))
    [Some 3%Z; Some 0%Z] None counting_world
  = (Ok submission_data, tick 2 counting_world)
  /\ exists sp tm em la lo,
       forall rec,
         rec ∈ submission_data ->
         Retailer rec = py_str (Some "Corner Shop")
         /\ Category rec = py_str (Some "Snacks")
         /\ Salesperson rec = sp /\ Team rec = tm /\ Email rec = em
         /\ Latitude rec = la /\ Longitude rec = lo
         /\ exists p,
              p ∈ snacks_products
              /\ Product rec = Product_name p
              /\ Some "Snacks" = Some (Product_Category p)
              /\ Category rec = Product_Category p.
Proof.
  cbv zeta. split; [reflexivity|].
  apply (batch_shares_selection snacks_products (Some "Corner Shop")
           (Some "Snacks")
           (Some (update_salesperson_info [corner_shop] (Some "Corner Shop")))
           [Some 3%Z; Some 0%Z] None _ counting_world (tick 2 counting_world));
    reflexivity.
Defined.

(** ** The geolocation store *)

(** X19.  The position of the browser never reaches a submission.  The
    clientside callback returns "0,0" for the store whatever the click
    counter and whatever the browser answers, so with the store as
    geolocation, as with no geolocation at all, every record of the build
    (for entered quantities within the range of a float) has Latitude "0"
    and Longitude "0". *)
Theorem store_never_holds_position (retailers_data : list retailer)
    (products_data : list product)
    (selected_retailer selected_category : option string)
    (input_values : list (option Z)) (geolocation : option string)
    (n_clicks : option nat) (answer : geolocation_answer) (w : World) :
  known_retailer retailers_data selected_retailer = true ->
  geolocation = None
  \/ geolocation = Some (geolocation_clientside n_clicks answer).1 ->
  quantities_fit input_values = true ->
  (geolocation_clientside n_clicks answer).1 = "0,0"
  /\ exists submission_data w',
       build_submission_data products_data selected_retailer selected_category
         (Some (update_salesperson_info retailers_data selected_retailer))
         input_values geolocation w
       = (Ok submission_data, w')
       /\ length submission_data
          = length (filtered_products products_data selected_category)
       /\ forall rec,
            rec ∈ submission_data -> Latitude rec = "0" /\ Longitude rec = "0".
Proof.
  intros Hret Hgeo Hq.
  assert (Hstore : (geolocation_clientside n_clicks answer).1 = "0,0").
  { unfold geolocation_clientside.
    by destruct (truthy_nat n_clicks), answer. }
  split; [done|].
  assert (Hll : latitude_longitude geolocation = Ok ("0", "0")).
  { destruct Hgeo as [->| ->]; [done|]. by rewrite Hstore. }
  destruct (known_retailer_paragraphs retailers_data selected_retailer Hret)
    as (sp & tm & em & H0 & H1 & H2).
  eexists _, _. split; [by eapply build_submission_data_ok|].
  split; [apply length_imap|].
  by intros rec (i & p & _ & ->)%rows_elem_of.
Qed.

Lemma store_never_holds_position_witness :
  let store := (geolocation_clientside (Some 1) (Position "12.97" "77.59")).1 in
  known_retailer [corner_shop] (Some "Corner Shop") = true
  /\ (Some store = None \/ Some store = Some store)
  /\ quantities_fit [Some 3%Z; Some 0%Z] = true
  /\ store = "0,0"
  /\ exists submission_data w',
       build_submission_data snacks_products (Some "Corner Shop") (Some "Snacks")
         (Some (update_salesperson_info [corner_shop] (Some "Corner Shop")))
         [Some 3%Z; Some 0%Z] (Some store) counting_world
       = (Ok submission_data, w')
       /\ length submission_data
          = length (filtered_products snacks_products (Some "Snacks"))
       /\ forall rec,
            rec ∈ submission_data -> Latitude rec = "0" /\ Longitude rec = "0".
Proof.
  cbv zeta. split; [reflexivity|]. split; [right; reflexivity|].
  split; [reflexivity|].
  apply (store_never_holds_position [corner_shop] snacks_products
           (Some "Corner Shop") (Some "Snacks") [Some 3%Z; Some 0%Z]
           (Some (geolocation_clientside (Some 1) (Position "12.97" "77.59")).1)
           (Some 1) (Position "12.97" "77.59") counting_world);
    [reflexivity|right; reflexivity|reflexivity].
Defined.

(** ** A quantity beyond the range of a float *)


